(** * slack_utils: the message collector and the message deleter

    A shallow embedding of [slack_utils/slack.py].  The Slack web API
    behind [self.sc.api_call] is an oracle that answers each request from
    the events that happened before it; the functions of the class [Slack]
    are written in a small monad that reads the earlier events, appends
    the new ones (API calls, log lines, sleeps) and may raise.

    Responses are records with the fields the code reads; a field that the
    service may leave out ([error], [headers], [subtype]) is an option, and
    reading it where it is absent raises [KeyError].  Sets of message
    identifiers are [gset string]; a list that is iterated stands for the
    order in which Python iterates the collection. *)

From Stdlib Require Import ZArith Ascii String Lia.
From stdpp Require Import base option list gmap strings pretty.

Set Warnings "-clear-no-such-hyp".

Local Open Scope string_scope.
Local Open Scope Z_scope.
Local Open Scope list_scope.

(** ** Python values and exceptions *)

(** The values a header of a delete response or the ["days"] entry of a
    rule can hold: [None], a [str] or an [int]. *)
Inductive pyval :=
| PNone
| PStr (s : string)
| PInt (z : Z).

Inductive exn :=
| Exception (msg : string)
| KeyError (key : string)
| ValueError (arg : string)
| TypeError
| OverflowError (msg : string).

(** What a call produces: a value, an exception, or no answer within the
    fuel given to the one unbounded loop ([while True] in [delete_messages]). *)
Inductive outcome (A : Type) :=
| Ret (a : A)
| Raise (e : exn)
| Diverge.
Arguments Ret {A} a.
Arguments Raise {A} e.
Arguments Diverge {A}.

(** Truth value of a Python object, as [or] and [if] test it. *)
Definition truthy (v : pyval) : bool :=
  match v with
  | PNone => false
  | PStr s => negb (String.eqb s "")
  | PInt z => negb (z =? 0)
  end.

(** [a or b]. *)
Definition py_or (a b : pyval) : pyval := if truthy a then a else b.

(** *** [int(...)] on a decimal literal

    A string holds the UTF-8 bytes of a Python [str].  On a [str] that is
    not ASCII, [int] first turns every white space of Unicode into a space
    and every decimal digit into its ASCII digit; then it strips the white
    space of ASCII, reads an optional sign and then digits, where single
    underscores may separate digits, and refuses a literal of more than 4300
    digits.  The tables are those of Unicode 14.0. *)
Definition is_space (c : ascii) : bool :=
  let n := nat_of_ascii c in
  ((9 <=? n)%nat && (n <=? 13)%nat) || (n =? 32)%nat.

Fixpoint lstrip (s : string) : string :=
  match s with
  | String c s' => if is_space c then lstrip s' else s
  | EmptyString => EmptyString
  end.

Fixpoint rstrip (s : string) : string :=
  match s with
  | String c s' =>
      match rstrip s' with
      | EmptyString => if is_space c then EmptyString else String c EmptyString
      | r => String c r
      end
  | EmptyString => EmptyString
  end.

Definition strip (s : string) : string := rstrip (lstrip s).

Fixpoint is_ascii (s : string) : bool :=
  match s with
  | String c s' => (N_of_ascii c <? 128)%N && is_ascii s'
  | EmptyString => true
  end.

(** The six low bits of a continuation byte of UTF-8. *)
Definition continuation (c : ascii) : option N :=
  let n := N_of_ascii c in
  if ((128 <=? n) && (n <? 192))%N then Some (n - 128)%N else None.

(** The code points of a string of UTF-8, where it is one. *)
Fixpoint code_points (s : string) : option (list N) :=
  match s with
  | EmptyString => Some []
  | String c s1 =>
      let n := N_of_ascii c in
      if (n <? 128)%N then cons n <$> code_points s1
      else if (n <? 192)%N then None
      else if (n <? 224)%N then
        match s1 with
        | String c1 s2 =>
            match continuation c1 with
            | Some x1 =>
                let cp := ((n - 192) * 64 + x1)%N in
                if (128 <=? cp)%N then cons cp <$> code_points s2 else None
            | None => None
            end
        | EmptyString => None
        end
      else if (n <? 240)%N then
        match s1 with
        | String c1 (String c2 s3) =>
            match continuation c1, continuation c2 with
            | Some x1, Some x2 =>
                let cp := ((n - 224) * 4096 + x1 * 64 + x2)%N in
                if ((2048 <=? cp) && negb ((55296 <=? cp) && (cp <=? 57343)))%N
                then cons cp <$> code_points s3 else None
            | _, _ => None
            end
        | _ => None
        end
      else if (n <? 248)%N then
        match s1 with
        | String c1 (String c2 (String c3 s4)) =>
            match continuation c1, continuation c2, continuation c3 with
            | Some x1, Some x2, Some x3 =>
                let cp := ((n - 240) * 262144 + x1 * 4096 + x2 * 64 + x3)%N in
                if ((65536 <=? cp) && (cp <=? 1114111))%N
                then cons cp <$> code_points s4 else None
            | _, _, _ => None
            end
        | _ => None
        end
      else None
  end.

(** The white space of Unicode beyond ASCII. *)
Definition unicode_spaces : list N :=
  [ 133; 160; 5760; 8192; 8193; 8194; 8195; 8196; 8197; 8198; 8199; 8200; 8201; 8202;
    8232; 8233; 8239; 8287; 12288 ]%N.

(** The digit zero of every script beyond ASCII; its nine successors are the
    digits one to nine. *)
Definition decimal_zeros : list N :=
  [ 1632; 1776; 1984; 2406; 2534; 2662; 2790; 2918; 3046; 3174; 3302; 3430;
    3558; 3664; 3792; 3872; 4160; 4240; 6112; 6160; 6470; 6608; 6784; 6800;
    6992; 7088; 7232; 7248; 42528; 43216; 43264; 43472; 43504; 43600; 44016;
    65296; 66720; 68912; 69734; 69872; 69942; 70096; 70384; 70736; 70864;
    71248; 71360; 71472; 71904; 72016; 72784; 73040; 73120; 92768; 92864;
    93008; 120782; 120792; 120802; 120812; 120822; 123200; 123632; 125264;
    130032 ]%N.

Definition to_decimal (cp : N) : option N :=
  (fun zero => cp - zero)%N
  <$> List.find (fun zero => ((zero <=? cp) && (cp <? zero + 10))%N) decimal_zeros.

(** What [int] makes of one character of a [str] that is not ASCII. *)
Definition to_ascii_char (cp : N) : option ascii :=
  if (cp <? 127)%N then Some (ascii_of_N cp)
  else if existsb (N.eqb cp) unicode_spaces then Some " "%char
  else (fun d => ascii_of_N (48 + d)) <$> to_decimal cp.

Definition to_ascii (s : string) : option string :=
  if is_ascii s then Some s
  else cps ← code_points s; string_of_list_ascii <$> mapM to_ascii_char cps.

Definition digit_of (c : ascii) : option Z :=
  let n := nat_of_ascii c in
  if ((48 <=? n)%nat && (n <=? 57)%nat)%bool then Some (Z.of_nat n - 48) else None.

(** [digits acc after_digit s]: the value of the digit string [s] read after
    [acc]; [after_digit] tells whether the previous character was a digit, the
    only place where an underscore or the end of the literal may follow. *)
Fixpoint digits (acc : Z) (after_digit : bool) (s : string) : option Z :=
  match s with
  | EmptyString => if after_digit then Some acc else None
  | String c s' =>
      match digit_of c with
      | Some d => digits (10 * acc + d) true s'
      | None =>
          if (Ascii.eqb c "_" && after_digit)%bool then digits acc false s' else None
      end
  end.

(** The number of digits of a literal. *)
Fixpoint count_digits (s : string) : nat :=
  match s with
  | String c s' => (if bool_decide (is_Some (digit_of c)) then 1 else 0) + count_digits s'
  | EmptyString => 0
  end.

Definition int_of_string (s : string) : option Z :=
  literal ← strip <$> to_ascii s;
  if (count_digits literal <=? 4300)%nat then
    match literal with
    | String "-" s' => Z.opp <$> digits 0 false s'
    | String "+" s' => digits 0 false s'
    | s' => digits 0 false s'
    end
  else None.

Definition py_int (v : pyval) : outcome Z :=
  match v with
  | PNone => Raise TypeError
  | PInt z => Ret z
  | PStr s =>
      match int_of_string s with
      | Some z => Ret z
      | None => Raise (ValueError s)
      end
  end.

(** [d[key]] on an entry that may be absent. *)
Definition getitem {A} (key : string) (entry : option A) : outcome A :=
  match entry with
  | Some a => Ret a
  | None => Raise (KeyError key)
  end.

(** [s.replace('#', '')]: every hash sign goes. *)
Fixpoint remove_hash (s : string) : string :=
  match s with
  | String c s' => if Ascii.eqb c "#" then remove_hash s' else String c (remove_hash s')
  | EmptyString => EmptyString
  end.

(** ** The remote interface *)

(** A message of a history page; [subtype] is present on some messages only. *)
Record message := {
  m_ts : string;
  m_type : string;
  m_subtype : option string
}.

Record history_response := {
  h_ok : bool;
  h_error : option string;
  h_messages : list message
}.

Record delete_response := {
  d_ok : bool;
  d_error : option string;
  d_headers : option (gmap string pyval)
}.

Record channel_info := {
  c_id : string;
  c_name : string
}.

(** A rule as [delete_messages] receives it; [map_channels_to_their_id]
    fills in [r_id]. *)
Record rule := {
  r_channel : string;
  r_days : pyval;
  r_id : option string
}.

Inductive level := INFO | WARNING | ERROR.

Section Slack.

(** [arrow] dates and the floats of [timestamp()] stay abstract. *)
Context {Date Timestamp : Type}.

(** The [latest] argument of a history request: the float cutoff on the
    first request, a string afterwards. *)
Inductive latest_arg :=
| LatestFloat (t : Timestamp)
| LatestStr (s : string).

Inductive api_request :=
| ConversationsList
| ConversationsHistory (channel : string) (latest : latest_arg) (oldest : Z)
    (inclusive : bool) (count : Z)
| ChatDelete (channel ts : string).

Inductive event :=
| ApiCall (r : api_request)
| Log (l : level) (msg : string)
| Sleep (seconds : Z).

(** Everything outside the program: the Slack client [self.sc] answers a
    request from the events so far; [arrow] gives the date; [float_minus_eps s]
    is [str(float(s) - 0.000001)], or nothing where [float(s)] raises. *)
Record environment := {
  conversations_list : list event -> list channel_info;
  conversations_history :
    list event -> string -> latest_arg -> Z -> bool -> Z -> history_response;
  chat_delete : list event -> string -> string -> delete_response;
  arrow_now : list event -> Date;
  arrow_shift_days : Z -> Date -> Date;
  arrow_timestamp : Date -> Timestamp;
  float_minus_eps : string -> option string
}.

(** ** The monad: earlier events in, outcome and new events out *)

Definition M (A : Type) : Type := list event -> outcome A * list event.

#[local] Instance M_ret : MRet M := fun A a _ => (Ret a, []).

(** A run that comes after the events [evs]. *)
Definition prefixed {A} (evs : list event) (run : outcome A * list event)
    : outcome A * list event :=
  (run.1, evs ++ run.2).

#[local] Instance M_bind : MBind M := fun A B k m tr =>
  match m tr with
  | (Ret a, evs) => prefixed evs (k a (tr ++ evs))
  | (Raise e, evs) => (Raise e, evs)
  | (Diverge, evs) => (Diverge, evs)
  end.

Definition lift {A} (o : outcome A) : M A := fun _ => (o, []).
Definition raise {A} (e : exn) : M A := lift (Raise e).
Definition emit (e : event) : M unit := fun _ => (Ret tt, [e]).
Definition log (l : level) (msg : string) : M unit := emit (Log l msg).

(** [self.sc.api_call(...)], one definition for each method called. *)
Definition call_list (env : environment) : M (list channel_info) :=
  fun tr => (Ret (conversations_list env tr), [ApiCall ConversationsList]).

Definition call_history (env : environment) (channel : string) (latest : latest_arg)
    (oldest : Z) (inclusive : bool) (count : Z) : M history_response :=
  fun tr => (Ret (conversations_history env tr channel latest oldest inclusive count),
             [ApiCall (ConversationsHistory channel latest oldest inclusive count)]).

Definition call_delete (env : environment) (channel ts : string) : M delete_response :=
  fun tr => (Ret (chat_delete env tr channel ts), [ApiCall (ChatDelete channel ts)]).

(** [time.sleep] of an [int]: the length is held in nanoseconds in 64 bits,
    and a length that does not fit is refused before its sign is looked at;
    then a negative length is refused. *)
Definition sleep_max : Z := 9223372036.

Definition sleep (seconds : Z) : M unit :=
  if (seconds <? - sleep_max) || (sleep_max <? seconds) then
    raise (OverflowError "timestamp too large to convert to C _PyTime_t")
  else if seconds <? 0 then raise (ValueError "sleep length must be non-negative")
  else emit (Sleep seconds).

(** ** [delete_channel_messages] *)

Definition retry_after_text : list string := ["Retry-After"; "retry-after"].

(** [headers.get(key)]. *)
Definition headers_get (headers : gmap string pyval) (key : string) : pyval :=
  default PNone (headers !! key).

(** [any(it in headers.keys() for it in retry_after_text)]. *)
Definition has_retry_after (headers : gmap string pyval) : bool :=
  existsb (fun it => bool_decide (it ∈ dom headers)) retry_after_text.

(** [headers.get('Retry-After') or headers.get('retry-after') or 2]. *)
Definition retry_after_value (headers : gmap string pyval) : pyval :=
  py_or (py_or (headers_get headers "Retry-After") (headers_get headers "retry-after"))
        (PInt 2).

(** [res.get('headers', {})] *)
Definition response_headers (res : delete_response) : gmap string pyval :=
  default ∅ (d_headers res).

(** [missing_messages.remove(ts_message)]. *)
Definition set_remove (ts : string) (s : gset string) : outcome (gset string) :=
  if bool_decide (ts ∈ s) then Ret (s ∖ {[ts]}) else Raise (KeyError ts).

(** ['Error deleting the message %s from the channel %s: %s'] *)
Definition delete_error (ts_message channel_id error : string) : string :=
  "Error deleting the message " +:+ ts_message +:+ " from the channel "
  +:+ channel_id +:+ ": " +:+ error.

(** How a pass over the messages ends: by the [return] inside the loop or by
    running off the end of the loop, with the loop variables at that point. *)
Inductive pass :=
| Paused (missing_messages : gset string) (retry_after : Z)
| Finished (missing_messages : gset string) (number_of_deleted_messages : nat).

Fixpoint delete_loop (env : environment) (channel_id : string) (messages : list string)
    (missing_messages : gset string) (number_of_deleted_messages : nat) : M pass :=
  match messages with
  | [] => mret (Finished missing_messages number_of_deleted_messages)
  | ts_message :: rest =>
      res ← call_delete env channel_id ts_message;
      stop ← (if negb (d_ok res) then
                let headers := response_headers res in
                if has_retry_after headers then
                  retry_after ← lift (py_int (retry_after_value headers));
                  log INFO (pretty number_of_deleted_messages
                            +:+ " deleted messages. We must wait "
                            +:+ pretty retry_after +:+ " second/s");;
                  mret (Some retry_after)
                else
                  error ← lift (getitem "error" (d_error res));
                  log ERROR (delete_error ts_message channel_id error);;
                  mret None
              else mret None);
      match stop with
      | Some retry_after => mret (Paused missing_messages retry_after)
      | None =>
          missing_messages' ← lift (set_remove ts_message missing_messages);
          delete_loop env channel_id rest missing_messages'
            (S number_of_deleted_messages)
      end
  end.

(** The result is [None] or the pair [(missing_messages, retry_after)]. *)
Definition delete_channel_messages (env : environment) (channel_id : string)
    (messages : list string) : M (option (gset string * Z)) :=
  p ← delete_loop env channel_id messages (list_to_set messages) 0%nat;
  match p with
  | Paused missing_messages retry_after => mret (Some (missing_messages, retry_after))
  | Finished _ _ => mret None
  end.

(** ** [timestamp_x_days_ago] *)

(** [initial_date.shift(days=-days).timestamp()], with [arrow.now()] for a
    date that was not given.  [arrow] keeps its dates within the years 1 to
    9999 and refuses a shift that leaves them; [arrow_shift_days] gives the
    shifted date where there is one, and the shifts here are taken to stay
    within that range. *)
Definition timestamp_x_days_ago (env : environment) (days : Z)
    (initial_date : option Date) : M Timestamp :=
  initial_date ← match initial_date with
                  | Some d => mret d
                  | None => fun tr => (Ret (arrow_now env tr), [])
                  end;
  mret (arrow_timestamp env (arrow_shift_days env (- days) initial_date)).

(** ** [load_messages_from_channel] *)

(** [if message_type: new_messages = list(filter(lambda x: x['type'] == message_type, ...))] *)
Definition filter_type (message_type : option string) (new_messages : list message)
    : list message :=
  match message_type with
  | Some t =>
      if truthy (PStr t) then filter (fun x => m_type x = t) new_messages
      else new_messages
  | None => new_messages
  end.

(** [list(filter(lambda x: x['subtype'] == message_subtype, ...))]: the
    lambda reads [x['subtype']] of every message it is given. *)
Fixpoint filter_by_subtype (t : string) (new_messages : list message)
    : outcome (list message) :=
  match new_messages with
  | [] => Ret []
  | x :: rest =>
      match m_subtype x with
      | None => Raise (KeyError "subtype")
      | Some s =>
          match filter_by_subtype t rest with
          | Ret kept => Ret (if String.eqb s t then x :: kept else kept)
          | failed => failed
          end
      end
  end.

Definition filter_subtype (message_subtype : option string) (new_messages : list message)
    : outcome (list message) :=
  match message_subtype with
  | Some t => if truthy (PStr t) then filter_by_subtype t new_messages else Ret new_messages
  | None => Ret new_messages
  end.

(** The two filters of one turn of the loop, the type filter first. *)
Definition filter_page (message_type message_subtype : option string)
    (new_messages : list message) : outcome (list message) :=
  filter_subtype message_subtype (filter_type message_type new_messages).

(** [set([m['ts'] for m in new_messages])] *)
Definition ts_of (new_messages : list message) : gset string :=
  list_to_set (m_ts <$> new_messages).

(** [min(...)] of a set of strings, in the order of [str]. *)
Definition py_min (s : gset string) : option string :=
  foldr (fun x best =>
           match best with
           | None => Some x
           | Some y => Some (if String.ltb x y then x else y)
           end) None (elements s).

(** [str(float(min(ts_new_messages)) - 0.000001)] *)
Definition next_latest (env : environment) (ts_new_messages : gset string)
    : outcome latest_arg :=
  match py_min ts_new_messages with
  | None => Raise (ValueError "min() arg is an empty sequence")
  | Some oldest_ts =>
      match float_minus_eps env oldest_ts with
      | Some s => Ret (LatestStr s)
      | None => Raise (ValueError oldest_ts)
      end
  end.

(** ['Error loading messages from channel %s: %s'] *)
Definition history_error (channel_id error : string) : string :=
  "Error loading messages from channel " +:+ channel_id +:+ ": " +:+ error.

(** The loop [while iterations < 10], by recursion on [10 - iterations]: a
    turn that does not [break] or raise adds one to [iterations]. *)
Fixpoint history_loop (env : environment) (channel_id : string)
    (message_type message_subtype : option string) (remaining : nat)
    (ts_messages : gset string) (minimum_timestamp : latest_arg) : M (gset string) :=
  match remaining with
  | O => mret ts_messages
  | S remaining' =>
      res ← call_history env channel_id minimum_timestamp 0 false 1000;
      if negb (h_ok res) then
        error ← lift (getitem "error" (h_error res));
        log ERROR (history_error channel_id error);;
        raise (Exception (history_error channel_id error))
      else
        new_messages ← lift (filter_page message_type message_subtype (h_messages res));
        let ts_new_messages := ts_of new_messages in
        if bool_decide (ts_new_messages = ∅)
           || bool_decide (ts_new_messages ⊆ ts_messages)
        then mret ts_messages
        else
          minimum_timestamp' ← lift (next_latest env ts_new_messages);
          history_loop env channel_id message_type message_subtype remaining'
            (ts_messages ∪ ts_new_messages) minimum_timestamp'
  end.

Definition load_messages_from_channel (env : environment) (channel_id : string)
    (min_days_old : option Z) (message_type message_subtype : option string)
    : M (gset string) :=
  let min_days_old := match min_days_old with
                      | None => 15
                      | Some days => days
                      end in
  minimum_timestamp ← timestamp_x_days_ago env min_days_old None;
  history_loop env channel_id message_type message_subtype 10
    ∅ (LatestFloat minimum_timestamp).

(** ** [list_of_channels] and [map_channels_to_their_id] *)

Definition list_of_channels (env : environment) : M (list (string * string)) :=
  channels_list ← call_list env;
  mret ((fun c => (c_id c, c_name c)) <$> channels_list).

(** The dictionary from channel name to id; a later channel of the same
    name overwrites an earlier one. *)
Definition mapping_channels_and_id (list_of_channels_and_id : list (string * string))
    : gmap string string :=
  foldl (fun mapping '(id_channel, channel_name) =>
           <[remove_hash channel_name := id_channel]> mapping)
        ∅ list_of_channels_and_id.

Definition unknown_channel (channel : string) : string :=
  "The channel " +:+ channel +:+ " does not exist or it is not accessible.".

(** The loop over the rules; the rules come back with their names stripped
    and their ids filled in. *)
Fixpoint resolve_rules (mapping : gmap string string) (rules : list rule)
    : M (list rule) :=
  match rules with
  | [] => mret []
  | r :: rest =>
      let channel := remove_hash (r_channel r) in
      match mapping !! channel with
      | None =>
          log ERROR (unknown_channel channel);;
          raise (Exception (unknown_channel channel))
      | Some id =>
          rest' ← resolve_rules mapping rest;
          mret ({| r_channel := channel; r_days := r_days r; r_id := Some id |} :: rest')
      end
  end.

Definition map_channels_to_their_id (env : environment) (rules : list rule)
    : M (list rule) :=
  list_of_channels_and_id ← list_of_channels env;
  resolve_rules (mapping_channels_and_id list_of_channels_and_id) rules.

(** ** [delete_messages] *)

(** The loop [while True] of one rule, with [fuel] turns at most.  A pass
    iterates over the set it is given; [elements] stands for that order. *)
Fixpoint delete_passes (env : environment) (fuel : nat) (channel_id : string)
    (missing_messages : gset string) : M unit :=
  match fuel with
  | O => lift Diverge
  | S fuel' =>
      res ← delete_channel_messages env channel_id (elements missing_messages);
      match res with
      | None => mret tt
      | Some (missing_messages', delay) =>
          sleep delay;;
          log INFO ("Waiting " +:+ pretty delay +:+ " seconds");;
          delete_passes env fuel' channel_id missing_messages'
      end
  end.

Fixpoint delete_by_rules (env : environment) (fuel : nat) (rules_by_channel : list rule)
    : M unit :=
  match rules_by_channel with
  | [] => mret tt
  | r :: rest =>
      min_days_old ← lift (py_int (r_days r));
      channel_id ← lift (getitem "id" (r_id r));
      ts_messages ← load_messages_from_channel env channel_id (Some min_days_old)
                      None None;
      (if bool_decide (ts_messages = ∅) then
         log INFO ("There are no messages to delete on channel "
                   +:+ r_channel r +:+ ".")
       else
         log WARNING ("Deleting " +:+ pretty (size ts_messages)
                      +:+ " messages from the channel #" +:+ r_channel r
                      +:+ " that are more than " +:+ pretty min_days_old
                      +:+ " days old...");;
         delete_passes env fuel channel_id ts_messages);;
      delete_by_rules env fuel rest
  end.

(** [Slack.get_instance] builds the client and calls nothing; the client
    is [env]. *)
Definition delete_messages (env : environment) (fuel : nat) (slack_token : string)
    (rules : list rule) : M unit :=
  rules_by_channel ← map_channels_to_their_id env rules;
  delete_by_rules env fuel rules_by_channel.

End Slack.

(** ** Reading a run *)

(** The identifiers of the delete requests among the events, in order. *)
Definition deleted_ts {Timestamp} (evs : list (@event Timestamp)) : list string :=
  omap (fun e => match e with
                 | ApiCall (ChatDelete _ ts) => Some ts
                 | _ => None
                 end) evs.

(** The [latest] arguments of the history requests among the events. *)
Definition history_calls {Timestamp} (evs : list (@event Timestamp))
    : list (@latest_arg Timestamp) :=
  omap (fun e => match e with
                 | ApiCall (ConversationsHistory _ latest _ _ _) => Some latest
                 | _ => None
                 end) evs.

(** From the events [tr] on, the service answers the delete requests for
    [channel] with [resp 0], [resp 1], ... in the order they are made. *)
Definition deletes_answered {Date Timestamp} (env : @environment Date Timestamp)
    (tr : list event) (channel : string) (resp : nat -> delete_response) : Prop :=
  forall evs ts, chat_delete env (tr ++ evs) channel ts = resp (length (deleted_ts evs)).

(** From the events [tr] on, the service answers the history requests for
    [channel] with [resp 0], [resp 1], ... in the order they are made. *)
Definition history_answered {Date Timestamp} (env : @environment Date Timestamp)
    (tr : list event) (channel : string) (resp : nat -> history_response) : Prop :=
  forall evs latest oldest inclusive count,
    conversations_history env (tr ++ evs) channel latest oldest inclusive count
    = resp (length (history_calls evs)).

(** A failed delete whose headers carry one of the two retry-after keys. *)
Definition rate_limited (res : delete_response) : Prop :=
  d_ok res = false /\ has_retry_after (response_headers res) = true.

(** A delete that failed with an error text and without a retry-after key. *)
Definition failed_plainly (res : delete_response) (error : string) : Prop :=
  d_ok res = false /\ has_retry_after (response_headers res) = false
  /\ d_error res = Some error.

(** A delete that was done, or that failed plainly. *)
Definition not_rate_limited (res : delete_response) : Prop :=
  d_ok res = true \/ exists error, failed_plainly res error.

(** The events of one delete attempt that is not rate limited. *)
Definition attempt_events {Timestamp} (channel ts : string) (res : delete_response)
    : list (@event Timestamp) :=
  ApiCall (ChatDelete channel ts)
  :: (if d_ok res then []
      else match d_error res with
           | Some error => [Log ERROR (delete_error ts channel error)]
           | None => []
           end).

(** The events of the attempts on [messages], answered by [resp c], [resp (c+1)], ... *)
Fixpoint pass_events {Timestamp} (channel : string) (resp : nat -> delete_response)
    (c : nat) (messages : list string) : list (@event Timestamp) :=
  match messages with
  | [] => []
  | ts :: rest => attempt_events channel ts (resp c) ++ pass_events channel resp (S c) rest
  end.

(** A history request of the collector for [channel]. *)
Definition is_history_request {Timestamp} (channel : string) (e : @event Timestamp)
    : Prop :=
  exists latest, e = ApiCall (ConversationsHistory channel latest 0 false 1000).

Definition is_ret {A} (o : outcome A) : bool :=
  match o with
  | Ret _ => true
  | _ => false
  end.

(** The identifiers a page contributes after the filters; none when a
    filter raises. *)
Definition page_ts (message_type message_subtype : option string)
    (res : history_response) : gset string :=
  match filter_page message_type message_subtype (h_messages res) with
  | Ret new_messages => ts_of new_messages
  | _ => ∅
  end.

(** The identifiers collected from the pages before the [i]-th. *)
Fixpoint seen (message_type message_subtype : option string)
    (resp : nat -> history_response) (i : nat) : gset string :=
  match i with
  | O => ∅
  | S j => seen message_type message_subtype resp j
           ∪ page_ts message_type message_subtype (resp j)
  end.

(** The page was delivered and the filters read it. *)
Definition readable (message_type message_subtype : option string)
    (res : history_response) : Prop :=
  h_ok res = true
  /\ is_ret (filter_page message_type message_subtype (h_messages res)) = true.

(** The [i]-th page contributes no identifier that was not collected before. *)
Definition stale (message_type message_subtype : option string)
    (resp : nat -> history_response) (i : nat) : Prop :=
  readable message_type message_subtype (resp i)
  /\ page_ts message_type message_subtype (resp i)
     ⊆ seen message_type message_subtype resp i.

(** The [i]-th page contributes a new identifier, and the next cursor can be
    computed from its oldest one. *)
Definition advances {Date Timestamp} (env : @environment Date Timestamp)
    (message_type message_subtype : option string)
    (resp : nat -> history_response) (i : nat) : Prop :=
  readable message_type message_subtype (resp i)
  /\ ~ page_ts message_type message_subtype (resp i)
       ⊆ seen message_type message_subtype resp i
  /\ is_ret (next_latest env (page_ts message_type message_subtype (resp i))) = true.

(** [sub] occurs in [s]. *)
Definition contains (s sub : string) : Prop :=
  exists before after, s = before +:+ sub +:+ after.

(** ** A scripted service, for the examples

    Dates and timestamps are seconds; the [i]-th history request is answered
    by [pages i] and the [i]-th delete request by [deletes i]. *)
Definition scripted (channels : list channel_info) (pages : nat -> history_response)
    (deletes : nat -> delete_response) : @environment Z Z :=
  {| conversations_list := fun _ => channels;
     conversations_history := fun tr _ _ _ _ _ => pages (length (history_calls tr));
     chat_delete := fun tr _ _ => deletes (length (deleted_ts tr));
     arrow_now := fun _ => 1700000000;
     arrow_shift_days := fun days date => date + days * 86400;
     arrow_timestamp := fun date => date;
     float_minus_eps := fun s => Some (s +:+ "-0.000001") |}.

(** The string of the bytes with the numbers [l]. *)
Definition bytes (l : list N) : string := string_of_list_ascii (ascii_of_N <$> l).

Definition deleted_ok : delete_response :=
  {| d_ok := true; d_error := None; d_headers := None |}.

Definition delete_failed (error : string) : delete_response :=
  {| d_ok := false; d_error := Some error; d_headers := Some ∅ |}.

Definition delete_limited (retry_after : pyval) : delete_response :=
  {| d_ok := false; d_error := Some "ratelimited";
     d_headers := Some {[ "Retry-After" := retry_after ]} |}.

Definition no_page : history_response :=
  {| h_ok := true; h_error := None; h_messages := [] |}.

Definition four_messages : list string := ["101.1"; "102.2"; "103.3"; "104.4"].

(** Done, not found, rate limited for [wait], then done. *)
Definition limited_at_2 (wait : pyval) (i : nat) : delete_response :=
  match i with
  | 1%nat => delete_failed "message_not_found"
  | 2%nat => delete_limited wait
  | _ => deleted_ok
  end.

(** Done, not found, done, cannot delete. *)
Definition two_failures (i : nat) : delete_response :=
  match i with
  | 1%nat => delete_failed "message_not_found"
  | 3%nat => delete_failed "cant_delete_message"
  | _ => deleted_ok
  end.

Definition plain (ts : string) : message :=
  {| m_ts := ts; m_type := "message"; m_subtype := None |}.

Definition from_bot (ts : string) : message :=
  {| m_ts := ts; m_type := "message"; m_subtype := Some "bot_message" |}.

Definition page (new_messages : list message) : history_response :=
  {| h_ok := true; h_error := None; h_messages := new_messages |}.

Definition history_failed (error : string) : history_response :=
  {| h_ok := false; h_error := Some error; h_messages := [] |}.

(** Two pages, then a page that repeats the oldest message. *)
Definition overlapping_pages (i : nat) : history_response :=
  match i with
  | 0%nat => page [plain "105.5"; plain "104.4"]
  | 1%nat => page [plain "103.3"; plain "102.2"]
  | _ => page [plain "102.2"]
  end.

(** Every page brings one message that was not seen before. *)
Definition endless_pages (i : nat) : history_response :=
  page [plain (pretty (500 - i)%nat +:+ ".0")].

(** One page, then a failure. *)
Definition failing_pages (i : nat) : history_response :=
  match i with
  | 0%nat => page [plain "105.5"]
  | _ => history_failed "channel_not_found"
  end.

(** A page of bot messages, then a page with a message without subtype. *)
Definition bot_pages (i : nat) : history_response :=
  match i with
  | 0%nat => page [from_bot "105.5"]
  | _ => page [from_bot "104.4"; plain "103.3"]
  end.

(** A page where the only message without subtype is not of type
    ["message"], then an empty page. *)
Definition mixed_pages (i : nat) : history_response :=
  match i with
  | 0%nat => page [from_bot "105.5";
                   {| m_ts := "104.4"; m_type := "file"; m_subtype := None |}]
  | _ => page []
  end.

Definition general_only : list channel_info := [ {| c_id := "C1"; c_name := "general" |} ].

Definition two_rules : list rule :=
  [ {| r_channel := "#general"; r_days := PStr "30"; r_id := None |};
    {| r_channel := "#random"; r_days := PStr "60"; r_id := None |} ].

Definition one_rule : list rule :=
  [ {| r_channel := "#general"; r_days := PStr "30"; r_id := None |} ].

(** A page, then a page that repeats its oldest message and adds none. *)
Definition repeating_pages (i : nat) : history_response :=
  match i with
  | 0%nat => page [plain "105.5"; plain "104.4"]
  | _ => page [plain "104.4"]
  end.

(** The scripted service that answers the history requests by [pages]. *)
Definition paging (pages : nat -> history_response) : @environment Z Z :=
  scripted general_only pages (fun _ => deleted_ok).

(** ** More ways to read a run *)

(** An event a pass of the deleter may leave: a delete request for
    [channel] or a log line. *)
Definition is_pass_event {Timestamp} (channel : string) (e : @event Timestamp) : Prop :=
  (exists ts, e = ApiCall (ChatDelete channel ts)) \/ (exists l msg, e = Log l msg).

(** The lengths of the sleeps among the events, in order. *)
Definition sleeps {Timestamp} (evs : list (@event Timestamp)) : list Z :=
  omap (fun e => match e with
                 | Sleep seconds => Some seconds
                 | _ => None
                 end) evs.

(** A rule after [map_channels_to_their_id] went over it: the name without
    hash signs and the id the dictionary holds for it. *)
Definition resolved (mapping : gmap string string) (r : rule) : rule :=
  {| r_channel := remove_hash (r_channel r);
     r_days := r_days r;
     r_id := mapping !! remove_hash (r_channel r) |}.

(** The dictionary [map_channels_to_their_id] builds from what the service
    lists. *)
Definition listed_mapping (channels : list channel_info) : gmap string string :=
  mapping_channels_and_id ((fun c => (c_id c, c_name c)) <$> channels).

(** The name of the rule, stripped, is the stripped name of a listed channel. *)
Definition resolvable (channels : list channel_info) (r : rule) : Prop :=
  remove_hash (r_channel r) ∈ (fun c => remove_hash (c_name c)) <$> channels.

(** What the type filter asks of a message: nothing when it is not given or
    is the empty string. *)
Definition type_wanted (message_type : option string) (m : message) : Prop :=
  match message_type with
  | Some t => t = "" \/ m_type m = t
  | None => True
  end.

(** What the subtype filter asks of a message. *)
Definition subtype_wanted (message_subtype : option string) (m : message) : Prop :=
  match message_subtype with
  | Some st => st = "" \/ m_subtype m = Some st
  | None => True
  end.

(** What the two filters ask of a message. *)
Definition wanted (message_type message_subtype : option string) (m : message) : Prop :=
  type_wanted message_type m /\ subtype_wanted message_subtype m.

#[global] Instance type_wanted_dec message_type m : Decision (type_wanted message_type m).
Proof. unfold type_wanted. destruct message_type; apply _. Defined.

#[global] Instance subtype_wanted_dec message_subtype m :
  Decision (subtype_wanted message_subtype m).
Proof. unfold subtype_wanted. destruct message_subtype; apply _. Defined.

#[global] Instance wanted_dec message_type message_subtype m :
  Decision (wanted message_type message_subtype m).
Proof. unfold wanted. apply _. Defined.

(** ** [Slack.get_instance]

    An instance of [Slack] holds the client built from its token; the class
    attribute [_instance] is [None] until the first call. *)
Record slack := { sc_token : string }.

Definition get_instance (slack_token : string) (_instance : option slack)
    : slack * option slack :=
  match _instance with
  | None => ({| sc_token := slack_token |}, Some {| sc_token := slack_token |})
  | Some instance => (instance, Some instance)
  end.

(** The instances a sequence of calls returns, from the class attribute
    [_instance] on. *)
Fixpoint get_instances (slack_tokens : list string) (_instance : option slack)
    : list slack :=
  match slack_tokens with
  | [] => []
  | slack_token :: rest =>
      let '(instance, _instance') := get_instance slack_token _instance in
      instance :: get_instances rest _instance'
  end.

(** ** More examples *)

(** A failure that carries neither headers nor an error text. *)
Definition delete_failed_silently : delete_response :=
  {| d_ok := false; d_error := None; d_headers := None |}.

(** Done, then a failure without error text. *)
Definition silent_failure_at_1 (i : nat) : delete_response :=
  match i with
  | 1%nat => delete_failed_silently
  | _ => deleted_ok
  end.

(** One page, then a failure without error text. *)
Definition silently_failing_pages (i : nat) : history_response :=
  match i with
  | 0%nat => page [plain "105.5"]
  | _ => {| h_ok := false; h_error := None; h_messages := [] |}
  end.

(** One page, then a page whose identifiers are words. *)
Definition word_pages (i : nat) : history_response :=
  match i with
  | 0%nat => page [plain "105.5"]
  | _ => page [plain "yesterday"; plain "today"]
  end.

(** A string of digits and dots only. *)
Fixpoint digits_and_dots (s : string) : bool :=
  match s with
  | EmptyString => true
  | String c s' =>
      (bool_decide (is_Some (digit_of c)) || Ascii.eqb c ".")%bool && digits_and_dots s'
  end.

(** A scripted service where only strings of digits and dots are floats. *)
Definition paging_floats (pages : nat -> history_response) : @environment Z Z :=
  {| conversations_list := fun _ => general_only;
     conversations_history := fun tr _ _ _ _ _ => pages (length (history_calls tr));
     chat_delete := fun _ _ _ => deleted_ok;
     arrow_now := fun _ => 1700000000;
     arrow_shift_days := fun days date => date + days * 86400;
     arrow_timestamp := fun date => date;
     float_minus_eps := fun s => if digits_and_dots s then Some (s +:+ "-0.000001")
                                 else None |}.

(** Two channels whose names are the same once the hash signs are gone. *)
Definition general_twice : list channel_info :=
  [ {| c_id := "C1"; c_name := "general" |}; {| c_id := "C2"; c_name := "#general" |} ].

Definition rule_of_words : list rule :=
  [ {| r_channel := "#general"; r_days := PStr "thirty"; r_id := None |} ].

(** * Proofs *)

(** ** Facts about runs *)

Section Runs.
Context {Date Timestamp : Type}.

Lemma prefixed_nil {A} (run : outcome A * list (@event Timestamp)) : prefixed [] run = run.
Proof. by destruct run. Qed.

Lemma prefixed_prefixed {A} (e1 e2 : list (@event Timestamp))
    (run : outcome A * list (@event Timestamp)) :
  prefixed e1 (prefixed e2 run) = prefixed (e1 ++ e2) run.
Proof. unfold prefixed; simpl. by rewrite app_assoc. Qed.

Lemma deleted_ts_app (e1 e2 : list (@event Timestamp)) :
  deleted_ts (e1 ++ e2) = deleted_ts e1 ++ deleted_ts e2.
Proof. apply omap_app. Qed.

Lemma history_calls_app (e1 e2 : list (@event Timestamp)) :
  history_calls (e1 ++ e2) = history_calls e1 ++ history_calls e2.
Proof. apply omap_app. Qed.

Lemma deleted_ts_attempt channel ts res :
  deleted_ts (attempt_events (Timestamp := Timestamp) channel ts res) = [ts].
Proof.
  unfold attempt_events. destruct (d_ok res); [done|]. by destruct (d_error res).
Qed.

Lemma deleted_ts_pass channel resp c messages :
  deleted_ts (pass_events (Timestamp := Timestamp) channel resp c messages) = messages.
Proof.
  revert c. induction messages as [|ts rest IH]; intros c; [done|].
  cbn [pass_events]. rewrite deleted_ts_app, deleted_ts_attempt, IH. done.
Qed.

End Runs.

Section Deleter.
Context {Date Timestamp : Type} (env : @environment Date Timestamp).

(** One turn of the loop on an attempt that is not rate limited: the
    identifier leaves the pending set and the loop goes on. *)
Lemma delete_loop_step channel ts rest missing n (tr : list (@event Timestamp)) :
  not_rate_limited (chat_delete env tr channel ts) ->
  ts ∈ missing ->
  delete_loop env channel (ts :: rest) missing n tr
  = prefixed (attempt_events channel ts (chat_delete env tr channel ts))
      (delete_loop env channel rest (missing ∖ {[ts]}) (S n)
         (tr ++ attempt_events channel ts (chat_delete env tr channel ts))).
Proof.
  intros Hres Hin.
  cbn [delete_loop]. unfold mbind, M_bind, call_delete, attempt_events.
  unfold set_remove, lift, log, emit, mret, M_ret.
  destruct Hres as [Hok | (error & Hok & Hkey & Herr)]; rewrite Hok; simpl.
  - rewrite bool_decide_eq_true_2 by done. simpl.
    rewrite !prefixed_nil, !app_nil_r. done.
  - rewrite Hkey, Herr. simpl.
    rewrite bool_decide_eq_true_2 by done. simpl.
    rewrite !prefixed_nil, !app_nil_r, prefixed_prefixed, <- !app_assoc. done.
Qed.

(** One turn of the loop on a rate-limited attempt: the loop stops there,
    with the pending set as it is, or [int] raises. *)
Lemma delete_loop_rate_limited channel ts rest missing n (tr : list (@event Timestamp)) :
  rate_limited (chat_delete env tr channel ts) ->
  delete_loop env channel (ts :: rest) missing n tr
  = match py_int (retry_after_value (response_headers (chat_delete env tr channel ts))) with
    | Ret retry_after =>
        (Ret (Paused missing retry_after),
         [ApiCall (ChatDelete channel ts);
          Log INFO (pretty n +:+ " deleted messages. We must wait "
                    +:+ pretty retry_after +:+ " second/s")])
    | Raise e => (Raise e, [ApiCall (ChatDelete channel ts)])
    | Diverge => (Diverge, [ApiCall (ChatDelete channel ts)])
    end.
Proof.
  intros [Hok Hkey].
  cbn [delete_loop]. unfold mbind, M_bind, call_delete.
  unfold lift, log, emit, mret, M_ret.
  rewrite Hok; simpl. rewrite Hkey.
  by destruct (py_int _).
Qed.

(** A run of attempts that are not rate limited. *)
Lemma delete_loop_prefix channel resp (tr : list (@event Timestamp)) :
  deletes_answered env tr channel resp ->
  forall pre rest missing n evs0,
    NoDup pre ->
    (forall ts, ts ∈ pre -> ts ∈ missing) ->
    (forall i, (i < length pre)%nat ->
       not_rate_limited (resp (length (deleted_ts evs0) + i)%nat)) ->
    delete_loop env channel (pre ++ rest) missing n (tr ++ evs0)
    = prefixed (pass_events channel resp (length (deleted_ts evs0)) pre)
        (delete_loop env channel rest (missing ∖ list_to_set pre) (n + length pre)
           (tr ++ evs0 ++ pass_events channel resp (length (deleted_ts evs0)) pre)).
Proof.
  intros Hresp pre. induction pre as [|ts pre IH]; intros rest missing n evs0 Hnd Hin Hpass.
  - simpl. rewrite prefixed_nil, app_nil_r, Nat.add_0_r.
    by rewrite difference_empty_L.
  - apply NoDup_cons in Hnd as [Hts Hnd].
    assert (Hhere : chat_delete env (tr ++ evs0) channel ts = resp (length (deleted_ts evs0)))
      by apply Hresp.
    simpl app at 1. rewrite delete_loop_step; rewrite ?Hhere.
    + set (evs1 := attempt_events channel ts (resp (length (deleted_ts evs0)))).
      assert (Hcount : length (deleted_ts (evs0 ++ evs1)) = S (length (deleted_ts evs0))).
      { rewrite deleted_ts_app, length_app. unfold evs1.
        rewrite deleted_ts_attempt. simpl. lia. }
      rewrite <- app_assoc.
      rewrite (IH rest (missing ∖ {[ts]}) (S n) (evs0 ++ evs1)); [| done | |].
      * rewrite prefixed_prefixed, Hcount. simpl pass_events. fold evs1.
        rewrite <- !app_assoc.
        assert (missing ∖ {[ts]} ∖ list_to_set pre = missing ∖ list_to_set (ts :: pre))
          as -> by set_solver.
        assert (S n + length pre = n + length (ts :: pre))%nat as -> by (simpl; lia).
        done.
      * intros x Hx. apply elem_of_difference. split.
        -- apply Hin. by right.
        -- intros ->%elem_of_singleton. done.
      * intros i Hi. rewrite Hcount.
        replace (S (length (deleted_ts evs0)) + i)%nat
          with (length (deleted_ts evs0) + S i)%nat by lia.
        apply Hpass. simpl. lia.
    + specialize (Hpass 0%nat). rewrite Nat.add_0_r in Hpass. apply Hpass. simpl. lia.
    + apply Hin. by left.
Qed.

(** Every failed attempt of such a run leaves its error line. *)
Lemma failures_logged channel resp messages c i ts error :
  messages !! i = Some ts ->
  failed_plainly (resp (c + i)%nat) error ->
  Log ERROR (delete_error ts channel error)
    ∈ pass_events (Timestamp := Timestamp) channel resp c messages.
Proof.
  revert c i. induction messages as [|m rest IH]; intros c i Hi Hfail; [done|].
  cbn [pass_events]. apply elem_of_app. destruct i as [|i].
  - left. simpl in Hi. injection Hi as ->. rewrite Nat.add_0_r in Hfail.
    destruct Hfail as (Hok & _ & Herr). unfold attempt_events.
    rewrite Hok, Herr. right. by left.
  - right. simpl in Hi. apply (IH (S c) i Hi).
    by replace (S c + i)%nat with (c + S i)%nat by lia.
Qed.

(** A pass whose first [k] attempts are not rate limited and whose next
    attempt is: the pass ends there, with what [int] makes of the value. *)
Lemma delete_pass_paused channel messages (tr : list (@event Timestamp)) resp k ts :
  NoDup messages ->
  deletes_answered env tr channel resp ->
  messages !! k = Some ts ->
  (forall i, (i < k)%nat -> not_rate_limited (resp i)) ->
  rate_limited (resp k) ->
  exists evs,
    deleted_ts evs = take k messages /\
    delete_channel_messages env channel messages tr
    = match py_int (retry_after_value (response_headers (resp k))) with
      | Ret retry_after =>
          (Ret (Some (list_to_set (drop k messages), retry_after)),
           evs ++ [ApiCall (ChatDelete channel ts);
                   Log INFO (pretty k +:+ " deleted messages. We must wait "
                             +:+ pretty retry_after +:+ " second/s")])
      | Raise e => (Raise e, evs ++ [ApiCall (ChatDelete channel ts)])
      | Diverge => (Diverge, evs ++ [ApiCall (ChatDelete channel ts)])
      end.
Proof.
  intros Hnd Hresp Hts Hpass Hlim.
  pose proof (lookup_lt_Some _ _ _ Hts) as Hk.
  pose proof (take_drop_middle messages k ts Hts) as Hsplit.
  assert (Hlen : length (take k messages) = k) by (rewrite length_take; lia).
  assert (Hnd' : NoDup (take k messages ++ ts :: drop (S k) messages))
    by (by rewrite Hsplit).
  apply NoDup_app in Hnd' as (Hndpre & Hdisj & _).
  pose proof (delete_loop_prefix channel resp tr Hresp (take k messages)
                (ts :: drop (S k) messages) (list_to_set messages) 0%nat []
                Hndpre) as Hrun.
  change (length (deleted_ts [])) with 0%nat in Hrun.
  rewrite Hsplit, app_nil_r, Nat.add_0_l, Hlen in Hrun. cbn [app] in Hrun.
  assert (Hpending : list_to_set messages ∖ list_to_set (take k messages)
                     = (list_to_set (drop k messages) : gset string)).
  { rewrite (drop_S messages ts k Hts). rewrite <- Hsplit at 1.
    rewrite list_to_set_app_L. set_solver. }
  rewrite Hpending in Hrun.
  set (evs1 := pass_events channel resp 0 (take k messages)) in *.
  assert (Hhere : chat_delete env (tr ++ evs1) channel ts = resp k).
  { rewrite Hresp. unfold evs1. by rewrite deleted_ts_pass, Hlen. }
  rewrite delete_loop_rate_limited in Hrun by (by rewrite Hhere).
  rewrite Hhere in Hrun.
  exists evs1. split; [apply deleted_ts_pass|].
  unfold delete_channel_messages, mbind, M_bind.
  rewrite Hrun.
  - destruct (py_int _) as [retry_after|e|]; unfold prefixed; simpl; [|done..].
    by rewrite app_nil_r.
  - intros x Hx. apply elem_of_list_to_set. by apply (subseteq_take k messages).
  - intros i Hi. apply Hpass. lia.
Qed.


(** C5, amended.  A failed delete whose headers carry a retry-after key, and
    where under both spellings the value is absent or empty ([None], the
    empty string, zero), makes [delete_channel_messages] return a wait of 2
    seconds. *)
Theorem empty_retry_after_waits_2 channel messages (tr : list (@event Timestamp))
    resp k :
  NoDup messages ->
  deletes_answered env tr channel resp ->
  (k < length messages)%nat ->
  (forall i, (i < k)%nat -> not_rate_limited (resp i)) ->
  rate_limited (resp k) ->
  truthy (headers_get (response_headers (resp k)) "Retry-After") = false ->
  truthy (headers_get (response_headers (resp k)) "retry-after") = false ->
  exists evs,
    delete_channel_messages env channel messages tr
    = (Ret (Some (list_to_set (drop k messages), 2)), evs).
Proof.
  intros Hnd Hresp Hk Hpass Hlim Hupper Hlower.
  destruct (lookup_lt_is_Some_2 messages k Hk) as [ts Hts].
  destruct (delete_pass_paused channel messages tr resp k ts Hnd Hresp Hts Hpass Hlim)
    as (evs & _ & Hrun).
  unfold retry_after_value, py_or in Hrun. rewrite Hupper, Hlower in Hrun.
  simpl in Hrun. eexists. exact Hrun.
Qed.

End Deleter.

Section Collector.
Context {Date Timestamp : Type} (env : @environment Date Timestamp).
Context (channel_id : string) (message_type message_subtype : option string).

Local Abbreviation loop := (history_loop env channel_id message_type message_subtype).
Local Abbreviation request latest :=
  (ApiCall (ConversationsHistory channel_id latest 0 false 1000)).
Local Abbreviation answer tr latest :=
  (conversations_history env tr channel_id latest 0 false 1000).

(** The test of the [break]: an empty set is a subset of every set. *)
Lemma break_test (ts_new_messages ts_messages : gset string) :
  bool_decide (ts_new_messages = ∅) || bool_decide (ts_new_messages ⊆ ts_messages)
  = bool_decide (ts_new_messages ⊆ ts_messages).
Proof.
  destruct (decide (ts_new_messages = ∅)) as [->|Hne].
  - rewrite bool_decide_eq_true_2 by done. simpl. symmetry.
    apply bool_decide_eq_true_2. apply empty_subseteq.
  - by rewrite (bool_decide_eq_false_2 _ Hne).
Qed.

(** *** One turn of the loop, by what the request returns *)

Lemma loop_failed n ts_messages latest (tr : list (@event Timestamp)) error :
  h_ok (answer tr latest) = false ->
  h_error (answer tr latest) = Some error ->
  loop (S n) ts_messages latest tr
  = (Raise (Exception (history_error channel_id error)),
     [request latest; Log ERROR (history_error channel_id error)]).
Proof.
  intros Hok Herr. cbn [history_loop].
  unfold mbind, M_bind, call_history, lift, log, emit, raise, lift.
  by rewrite Hok, Herr.
Qed.

Lemma loop_unreadable n ts_messages latest (tr : list (@event Timestamp)) e :
  h_ok (answer tr latest) = true ->
  filter_page message_type message_subtype (h_messages (answer tr latest)) = Raise e ->
  loop (S n) ts_messages latest tr = (Raise e, [request latest]).
Proof.
  intros Hok Hfilter. cbn [history_loop].
  unfold mbind, M_bind, call_history, lift.
  by rewrite Hok, Hfilter.
Qed.

Lemma loop_stale n ts_messages latest (tr : list (@event Timestamp)) :
  readable message_type message_subtype (answer tr latest) ->
  page_ts message_type message_subtype (answer tr latest) ⊆ ts_messages ->
  loop (S n) ts_messages latest tr = (Ret ts_messages, [request latest]).
Proof.
  intros [Hok Hfilter] Hsub. cbn [history_loop].
  unfold mbind, M_bind, call_history, lift, page_ts in *.
  rewrite Hok. simpl.
  destruct (filter_page _ _ _) as [new_messages| |]; [|done..].
  simpl. rewrite break_test, bool_decide_eq_true_2 by done. done.
Qed.

Lemma loop_advances n ts_messages latest (tr : list (@event Timestamp)) :
  readable message_type message_subtype (answer tr latest) ->
  ~ page_ts message_type message_subtype (answer tr latest) ⊆ ts_messages ->
  loop (S n) ts_messages latest tr
  = match next_latest env (page_ts message_type message_subtype (answer tr latest)) with
    | Ret latest' =>
        prefixed [request latest]
          (loop n (ts_messages ∪ page_ts message_type message_subtype (answer tr latest))
             latest' (tr ++ [request latest]))
    | Raise e => (Raise e, [request latest])
    | Diverge => (Diverge, [request latest])
    end.
Proof.
  intros [Hok Hfilter] Hsub. cbn [history_loop].
  unfold mbind, M_bind, call_history, lift, page_ts in *.
  rewrite Hok. simpl.
  destruct (filter_page _ _ _) as [new_messages| |]; [|done..].
  simpl. rewrite break_test, bool_decide_eq_false_2 by done.
  destruct (next_latest env _) as [latest'| |]; simpl; [|done..].
  by rewrite ?prefixed_nil, ?app_nil_r.
Qed.

Lemma history_calls_requests (evs : list (@event Timestamp)) :
  Forall (is_history_request channel_id) evs ->
  length (history_calls evs) = length evs.
Proof.
  induction 1 as [|e evs [latest ->] _ IH]; [done|]. simpl. by rewrite IH.
Qed.

(** *** Several turns *)

(** As long as the pages bring new identifiers, the loop goes on: after [k]
    such pages it has made [k] requests and nothing else, and has collected
    the identifiers of these pages. *)
Lemma loop_prefix resp (tr : list (@event Timestamp)) :
  history_answered env tr channel_id resp ->
  forall k n evs0 latest,
    (forall i, (i < k)%nat ->
       advances env message_type message_subtype resp (length (history_calls evs0) + i)) ->
    exists evs latest',
      length evs = k
      /\ Forall (is_history_request channel_id) evs
      /\ loop (k + n) (seen message_type message_subtype resp (length (history_calls evs0)))
           latest (tr ++ evs0)
         = prefixed evs
             (loop n (seen message_type message_subtype resp
                        (length (history_calls evs0) + k))
                latest' (tr ++ evs0 ++ evs)).
Proof.
  intros Hresp k. induction k as [|k IH]; intros n evs0 latest Hadv.
  - exists [], latest. split; [done|]. split; [done|].
    by rewrite prefixed_nil, !app_nil_r, Nat.add_0_r.
  - set (c := length (history_calls evs0)) in *.
    assert (Hhere : answer (tr ++ evs0) latest = resp c) by apply Hresp.
    destruct (Hadv 0%nat ltac:(lia)) as (Hread & Hnew & Hnext).
    rewrite Nat.add_0_r in Hread, Hnew, Hnext.
    cbn [Nat.add]. rewrite loop_advances; rewrite Hhere; [|done..].
    destruct (next_latest env _) as [latest1| |]; [|done..].
    assert (Hcount : length (history_calls (evs0 ++ [request latest])) = S c).
    { rewrite history_calls_app, length_app. simpl. unfold c. lia. }
    destruct (IH n (evs0 ++ [request latest]) latest1) as (evs & latest' & Hlen & Hreq & Hrun).
    { intros i Hi. rewrite Hcount.
      replace (S c + i)%nat with (c + S i)%nat by lia. apply Hadv. lia. }
    exists (request latest :: evs), latest'.
    split; [by rewrite <- Hlen|]. split.
    { constructor; [by eexists | done]. }
    rewrite Hcount in Hrun. cbn [seen] in Hrun.
    rewrite <- app_assoc, Hrun, prefixed_prefixed.
    replace (S c + k)%nat with (c + S k)%nat by lia.
    by rewrite <- !app_assoc.
Qed.

(** No run makes more requests than the loop has turns. *)
Lemma loop_calls_bound n ts_messages latest (tr : list (@event Timestamp)) :
  (length (history_calls (loop n ts_messages latest tr).2) <= n)%nat.
Proof.
  revert ts_messages latest tr.
  induction n as [|n IH]; intros ts_messages latest tr; [done|].
  cbn [history_loop]. unfold mbind, M_bind, call_history, lift, log, emit, raise, lift.
  destruct (h_ok _); simpl.
  - destruct (filter_page _ _ _) as [new_messages| |]; simpl; [|lia..].
    destruct (_ || _); simpl; [lia|].
    destruct (next_latest env _) as [latest'| |]; simpl; [|lia..].
    rewrite !app_nil_r. apply le_n_S, IH.
  - destruct (h_error _); simpl; lia.
Qed.

(** With pages of at most 1000 messages, a turn adds at most 1000
    identifiers. *)
Lemma ts_of_size new_messages : (size (ts_of new_messages) <= length new_messages)%nat.
Proof.
  unfold ts_of. induction new_messages as [|m rest IH].
  - by rewrite fmap_nil, list_to_set_nil, size_empty.
  - rewrite fmap_cons, list_to_set_cons, length_cons, size_union_alt, size_singleton.
    pose proof (subseteq_size (list_to_set (m_ts <$> rest) ∖ {[m_ts m]})
                  (list_to_set (m_ts <$> rest) : gset string)) as Hle.
    specialize (Hle ltac:(set_solver)). lia.
Qed.

Lemma filter_by_subtype_length t new_messages kept :
  filter_by_subtype t new_messages = Ret kept ->
  (length kept <= length new_messages)%nat.
Proof.
  revert kept. induction new_messages as [|m rest IH]; intros kept; simpl.
  - by intros [= <-].
  - destruct (m_subtype m); [|done].
    destruct (filter_by_subtype t rest) as [kept'| |]; [|done..].
    intros [= <-]. specialize (IH kept' eq_refl).
    destruct (String.eqb _ _); simpl; lia.
Qed.

Lemma filter_page_length new_messages kept :
  filter_page message_type message_subtype new_messages = Ret kept ->
  (length kept <= length new_messages)%nat.
Proof.
  unfold filter_page, filter_subtype, filter_type. intros Hkept.
  assert (Htype : (length (filter (fun x => m_type x = default "" message_type) new_messages)
                   <= length new_messages)%nat) by apply length_filter.
  destruct message_type as [t|], message_subtype as [st|]; simpl in *;
    repeat match type of Hkept with
           | context [if ?b then _ else _] => destruct b
           end;
    try apply filter_by_subtype_length in Hkept;
    try (injection Hkept as <-); lia.
Qed.

Lemma loop_size_bound n ts_messages latest (tr : list (@event Timestamp)) s evs :
  (forall tr' latest', (length (h_messages (answer tr' latest')) <= 1000)%nat) ->
  loop n ts_messages latest tr = (Ret s, evs) ->
  (size s <= size ts_messages + 1000 * n)%nat.
Proof.
  intros Hpage. revert ts_messages latest tr evs.
  induction n as [|n IH]; intros ts_messages latest tr evs.
  - cbn. intros [= <- _]. lia.
  - cbn [history_loop]. unfold mbind, M_bind, call_history, lift, log, emit, raise, lift.
    destruct (h_ok _); simpl.
    + destruct (filter_page _ _ _) as [new_messages| |] eqn:Hfilter; simpl; [|done..].
      destruct (_ || _); simpl; [intros [= <- _]; lia|].
      destruct (next_latest env _) as [latest'| |]; simpl; [|done..].
      unfold prefixed. destruct (loop n _ _ _) as [r evs'] eqn:Hrun. simpl.
      intros [= -> _]. apply IH in Hrun.
      apply filter_page_length in Hfilter.
      pose proof (ts_of_size new_messages).
      pose proof (size_union_alt ts_messages (ts_of new_messages)) as Hu.
      pose proof (subseteq_size (ts_of new_messages ∖ ts_messages) (ts_of new_messages)
                    ltac:(set_solver)).
      pose proof (Hpage tr latest). lia.
    + destruct (h_error _); simpl; done.
Qed.

(** A run that returns has either used all its turns on pages that brought
    new identifiers, or has met a stale page after such pages. *)
Lemma loop_returns resp (tr : list (@event Timestamp)) :
  history_answered env tr channel_id resp ->
  forall n evs0 latest s evs,
    loop n (seen message_type message_subtype resp (length (history_calls evs0)))
      latest (tr ++ evs0) = (Ret s, evs) ->
    exists j,
      (forall i, (i < j)%nat ->
         advances env message_type message_subtype resp (length (history_calls evs0) + i))
      /\ s = seen message_type message_subtype resp (length (history_calls evs0) + j)
      /\ ((j = n /\ length (history_calls evs) = n)
          \/ ((j < n)%nat
              /\ stale message_type message_subtype resp (length (history_calls evs0) + j)
              /\ length (history_calls evs) = S j)).
Proof.
  intros Hresp n. induction n as [|n IH]; intros evs0 latest s evs.
  - cbn. intros [= <- <-]. exists 0%nat. rewrite Nat.add_0_r.
    split; [intros i Hi; lia|]. split; [done|]. by left.
  - set (c := length (history_calls evs0)) in *.
    assert (Hhere : answer (tr ++ evs0) latest = resp c) by apply Hresp.
    destruct (h_ok (resp c)) eqn:Hok.
    2:{ destruct (h_error (resp c)) as [error|] eqn:Herr.
        - rewrite (loop_failed _ _ _ _ error) by (by rewrite Hhere). done.
        - cbn [history_loop].
          unfold mbind, M_bind, call_history, lift. rewrite Hhere, Hok, Herr. done. }
    destruct (filter_page message_type message_subtype (h_messages (resp c)))
      as [new_messages|e|] eqn:Hfilter.
    2:{ rewrite (loop_unreadable _ _ _ _ e) by (by rewrite Hhere). done. }
    2:{ cbn [history_loop].
        unfold mbind, M_bind, call_history, lift. rewrite Hhere, Hok, Hfilter. done. }
    assert (Hread : readable message_type message_subtype (resp c)).
    { split; [done|]. by rewrite Hfilter. }
    destruct (decide (page_ts message_type message_subtype (resp c)
                      ⊆ seen message_type message_subtype resp c)) as [Hsub|Hnew].
    + rewrite loop_stale by (by rewrite Hhere). intros [= <- <-].
      exists 0%nat. rewrite Nat.add_0_r.
      split; [intros i Hi; lia|]. split; [done|]. right.
      split; [lia|]. split; [by split|done].
    + rewrite loop_advances by (by rewrite Hhere). rewrite Hhere.
      destruct (next_latest env _) as [latest1| |] eqn:Hnext; [|done..].
      assert (Hcount : length (history_calls (evs0 ++ [request latest])) = S c).
      { rewrite history_calls_app, length_app. simpl. unfold c. lia. }
      specialize (IH (evs0 ++ [request latest]) latest1).
      rewrite Hcount in IH. cbn [seen] in IH. rewrite <- (app_assoc tr evs0).
      unfold prefixed. destruct (loop n _ _ _) as [r evs'] eqn:Hrun. simpl.
      intros [= -> <-].
      destruct (IH s evs' eq_refl) as (j & Hadv & Hs & Hend).
      exists (S j). split; [|split].
      * intros [|i] Hi.
        -- rewrite Nat.add_0_r. split; [done|]. split; [done|]. by rewrite Hnext.
        -- replace (c + S i)%nat with (S c + i)%nat by lia. apply Hadv. lia.
      * by replace (c + S j)%nat with (S c + j)%nat by lia.
      * replace (c + S j)%nat with (S c + j)%nat by lia.
        destruct Hend as [[-> Hlen] | (Hj & Hstale & Hlen)].
        -- left. split; [done|]. simpl. by rewrite Hlen.
        -- right. split; [lia|]. split; [done|]. simpl. by rewrite Hlen.
Qed.

(** *** The whole collector *)

Lemma load_unfold min_days_old (tr : list (@event Timestamp)) :
  load_messages_from_channel env channel_id min_days_old message_type message_subtype tr
  = loop 10 ∅
      (LatestFloat (arrow_timestamp env
                      (arrow_shift_days env (- default 15 min_days_old) (arrow_now env tr))))
      tr.
Proof.
  unfold load_messages_from_channel, timestamp_x_days_ago, mbind, M_bind, mret, M_ret.
  simpl. rewrite !prefixed_nil, !app_nil_r. by destruct min_days_old.
Qed.

(** C2.  Let the pages answer the history requests in order.  If the [k]-th
    page ([k] below 10, counted from 0) is the first that contributes no
    identifier beyond those collected, the collector stops there: it has made
    [k + 1] requests and returns what the pages before it contributed.  And
    a run that returns after fewer than 10 requests has stopped on such a
    page. *)
Theorem stops_at_first_stale_page min_days_old (tr : list (@event Timestamp)) resp :
  history_answered env tr channel_id resp ->
  (forall k,
     (k < 10)%nat ->
     (forall i, (i < k)%nat -> advances env message_type message_subtype resp i) ->
     stale message_type message_subtype resp k ->
     exists evs,
       load_messages_from_channel env channel_id min_days_old message_type
         message_subtype tr
       = (Ret (seen message_type message_subtype resp k), evs)
       /\ length evs = S k
       /\ Forall (is_history_request channel_id) evs)
  /\ (forall s evs,
        load_messages_from_channel env channel_id min_days_old message_type
          message_subtype tr = (Ret s, evs) ->
        (length (history_calls evs) < 10)%nat ->
        exists k,
          length (history_calls evs) = S k
          /\ stale message_type message_subtype resp k
          /\ s = seen message_type message_subtype resp k).
Proof.
  intros Hresp. split.
  - intros k Hk Hadv Hstale. rewrite load_unfold.
    destruct (loop_prefix resp tr Hresp k (10 - k) [] (LatestFloat
                (arrow_timestamp env (arrow_shift_days env (- default 15 min_days_old)
                                        (arrow_now env tr)))) Hadv)
      as (evs & latest' & Hlen & Hreq & Hrun).
    replace (k + (10 - k))%nat with 10%nat in Hrun by lia.
    rewrite app_nil_r in Hrun.
    change (length (history_calls [])) with 0%nat in Hrun. cbn [Nat.add seen app] in Hrun.
    rewrite Hrun. destruct (10 - k)%nat as [|n] eqn:Hn; [lia|].
    assert (Hhere : answer (tr ++ evs) latest' = resp k).
    { rewrite Hresp. by rewrite history_calls_requests, Hlen. }
    rewrite loop_stale by (rewrite Hhere; apply Hstale).
    exists (evs ++ [request latest']). split; [done|]. split.
    + rewrite length_app, Hlen. simpl. lia.
    + apply Forall_app. split; [done|]. constructor; [by eexists | done].
  - intros s evs Hrun Hfew. rewrite load_unfold in Hrun.
    pose proof (loop_returns resp tr Hresp 10 [] (LatestFloat
                  (arrow_timestamp env (arrow_shift_days env (- default 15 min_days_old)
                                          (arrow_now env tr)))) s evs) as Hret.
    change (length (history_calls [])) with 0%nat in Hret.
    rewrite app_nil_r in Hret. cbn [Nat.add seen] in Hret.
    destruct (Hret Hrun) as (j & _ & Hs & [[-> Hlen] | (Hj & Hstale & Hlen)]).
    + lia.
    + exists j. done.
Qed.

(** C3.  The collector makes at most 10 history requests, whatever the
    service answers; with pages of at most 1000 messages a set it returns has
    at most 10 * 1000 identifiers; and when 10 pages in a row bring new
    identifiers it returns what these 10 pages contributed, after 10 requests
    and nothing else: no error is raised and no line is logged, whatever the
    pages after them hold. *)
Theorem at_most_ten_pages min_days_old (tr : list (@event Timestamp)) :
  (length (history_calls
             (load_messages_from_channel env channel_id min_days_old message_type
                message_subtype tr).2) <= 10)%nat
  /\ ((forall tr' latest, (length (h_messages (answer tr' latest)) <= 1000)%nat) ->
      forall s evs,
        load_messages_from_channel env channel_id min_days_old message_type
          message_subtype tr = (Ret s, evs) ->
        (size s <= 10 * 1000)%nat)
  /\ (forall resp,
        history_answered env tr channel_id resp ->
        (forall i, (i < 10)%nat -> advances env message_type message_subtype resp i) ->
        exists evs,
          load_messages_from_channel env channel_id min_days_old message_type
            message_subtype tr
          = (Ret (seen message_type message_subtype resp 10), evs)
          /\ length evs = 10%nat
          /\ Forall (is_history_request channel_id) evs).
Proof.
  rewrite load_unfold. split; [apply loop_calls_bound|]. split.
  - intros Hpage s evs Hrun.
    pose proof (loop_size_bound _ _ _ _ _ _ Hpage Hrun) as Hsize.
    rewrite size_empty in Hsize. lia.
  - intros resp Hresp Hadv.
    destruct (loop_prefix resp tr Hresp 10 0 [] (LatestFloat
                (arrow_timestamp env (arrow_shift_days env (- default 15 min_days_old)
                                        (arrow_now env tr)))) Hadv)
      as (evs & latest' & Hlen & Hreq & Hrun).
    rewrite app_nil_r in Hrun.
    change (length (history_calls [])) with 0%nat in Hrun. cbn [Nat.add seen app] in Hrun.
    exists evs. split; [|done].
    cbn [Nat.add]. rewrite Hrun. cbn [history_loop].
    unfold prefixed, mret, M_ret. simpl. by rewrite app_nil_r.
Qed.

Lemma append_assoc (a b c : string) : (a +:+ b) +:+ c = a +:+ b +:+ c.
Proof.
  induction a as [|x a IH]; [done|].
  change (String x ((a +:+ b) +:+ c) = String x (a +:+ b +:+ c)). by rewrite IH.
Qed.

Lemma append_empty_r (a : string) : a +:+ "" = a.
Proof.
  induction a as [|x a IH]; [done|].
  change (String x (a +:+ "") = String x a). by rewrite IH.
Qed.

Lemma history_error_contains error :
  contains (history_error channel_id error) channel_id
  /\ contains (history_error channel_id error) error.
Proof.
  unfold contains, history_error. split.
  - by exists "Error loading messages from channel ", (": " +:+ error).
  - exists ("Error loading messages from channel " +:+ channel_id +:+ ": "), "".
    by rewrite append_empty_r, !append_assoc.
Qed.

(** C7.  Let the pages answer the history requests in order.  If the [k]-th
    page is reached and is a failure ([ok] false) with an error text, the
    collector raises an exception whose message contains the channel id and
    the error text; the events of the run are the [k + 1] requests and the
    error line, so the request is not made again, and no set is returned. *)
Theorem history_failure_is_fatal min_days_old (tr : list (@event Timestamp)) resp k error :
  history_answered env tr channel_id resp ->
  (k < 10)%nat ->
  (forall i, (i < k)%nat -> advances env message_type message_subtype resp i) ->
  h_ok (resp k) = false ->
  h_error (resp k) = Some error ->
  exists evs,
    load_messages_from_channel env channel_id min_days_old message_type message_subtype tr
    = (Raise (Exception (history_error channel_id error)),
       evs ++ [Log ERROR (history_error channel_id error)])
    /\ length evs = S k
    /\ Forall (is_history_request channel_id) evs
    /\ contains (history_error channel_id error) channel_id
    /\ contains (history_error channel_id error) error.
Proof.
  intros Hresp Hk Hadv Hok Herr. rewrite load_unfold.
  destruct (loop_prefix resp tr Hresp k (10 - k) [] (LatestFloat
              (arrow_timestamp env (arrow_shift_days env (- default 15 min_days_old)
                                      (arrow_now env tr)))) Hadv)
    as (evs & latest' & Hlen & Hreq & Hrun).
  replace (k + (10 - k))%nat with 10%nat in Hrun by lia.
  rewrite app_nil_r in Hrun.
  change (length (history_calls [])) with 0%nat in Hrun. cbn [Nat.add seen app] in Hrun.
  rewrite Hrun. destruct (10 - k)%nat as [|n] eqn:Hn; [lia|].
  assert (Hhere : answer (tr ++ evs) latest' = resp k).
  { rewrite Hresp. by rewrite history_calls_requests, Hlen. }
  rewrite (loop_failed _ _ _ _ error) by (by rewrite Hhere).
  exists (evs ++ [request latest']). split.
  { unfold prefixed. simpl. by rewrite <- app_assoc. }
  split; [rewrite length_app, Hlen; simpl; lia|].
  split; [|apply history_error_contains].
  apply Forall_app. split; [done|]. constructor; [by eexists | done].
Qed.

(** The subtype filter returns exactly when every message it is given
    carries a subtype. *)
Lemma filter_by_subtype_total t new_messages :
  is_ret (filter_by_subtype t new_messages) = true
  <-> Forall (fun m => is_Some (m_subtype m)) new_messages.
Proof.
  induction new_messages as [|m rest IH]; simpl.
  - split; [constructor | done].
  - destruct (m_subtype m) as [s|] eqn:Hm.
    + destruct (filter_by_subtype t rest) as [kept| |]; simpl in *.
      * split; [|done]. intros _. constructor; [by rewrite Hm | by apply IH].
      * split; [done|]. intros Hall. apply Forall_cons in Hall as [_ Hall].
        by apply IH in Hall.
      * split; [done|]. intros Hall. apply Forall_cons in Hall as [_ Hall].
        by apply IH in Hall.
    + split; [done|]. intros Hall. apply Forall_cons in Hall as [[s Hs] _]. congruence.
Qed.

Lemma filter_by_subtype_raises t new_messages :
  ~ Forall (fun m => is_Some (m_subtype m)) new_messages ->
  filter_by_subtype t new_messages = Raise (KeyError "subtype").
Proof.
  induction new_messages as [|m rest IH]; intros Hnot.
  - destruct Hnot. constructor.
  - simpl. destruct (m_subtype m) as [s|] eqn:Hm; [|done].
    rewrite IH; [done|]. intros Hall. apply Hnot. constructor; [by rewrite Hm | done].
Qed.

(** C10, amended.  With a subtype filter requested, the filter returns
    exactly when every message it is given, that is every message of the page
    that passed the type filter, carries a subtype; and when a page that is
    reached holds a message that passes the type filter and carries no
    subtype, the collector raises [KeyError] on that page. *)
Theorem missing_subtype_raises min_days_old st :
  message_subtype = Some st ->
  st <> "" ->
  (forall new_messages,
     is_ret (filter_page message_type message_subtype new_messages) = true
     <-> Forall (fun m => is_Some (m_subtype m)) (filter_type message_type new_messages))
  /\ (forall (tr : list (@event Timestamp)) resp k,
        history_answered env tr channel_id resp ->
        (k < 10)%nat ->
        (forall i, (i < k)%nat -> advances env message_type message_subtype resp i) ->
        h_ok (resp k) = true ->
        (exists m, m ∈ filter_type message_type (h_messages (resp k))
                   /\ m_subtype m = None) ->
        exists evs,
          load_messages_from_channel env channel_id min_days_old message_type
            message_subtype tr
          = (Raise (KeyError "subtype"), evs)
          /\ length evs = S k
          /\ Forall (is_history_request channel_id) evs).
Proof.
  intros Hst Hne.
  assert (Hfilter : forall new_messages,
             filter_page message_type message_subtype new_messages
             = filter_by_subtype st (filter_type message_type new_messages)).
  { intros new_messages. unfold filter_page, filter_subtype. rewrite Hst. simpl.
    by rewrite (proj2 (String.eqb_neq st "") Hne). }
  split.
  - intros new_messages. rewrite Hfilter. apply filter_by_subtype_total.
  - intros tr resp k Hresp Hk Hadv Hok (m & Hin & Hm). rewrite load_unfold.
    destruct (loop_prefix resp tr Hresp k (10 - k) [] (LatestFloat
                (arrow_timestamp env (arrow_shift_days env (- default 15 min_days_old)
                                        (arrow_now env tr)))) Hadv)
      as (evs & latest' & Hlen & Hreq & Hrun).
    replace (k + (10 - k))%nat with 10%nat in Hrun by lia.
    rewrite app_nil_r in Hrun.
    change (length (history_calls [])) with 0%nat in Hrun. cbn [Nat.add seen app] in Hrun.
    rewrite Hrun. destruct (10 - k)%nat as [|n] eqn:Hn; [lia|].
    assert (Hhere : answer (tr ++ evs) latest' = resp k).
    { rewrite Hresp. by rewrite history_calls_requests, Hlen. }
    rewrite (loop_unreadable _ _ _ _ (KeyError "subtype")); [| by rewrite Hhere |].
    + exists (evs ++ [request latest']). split; [done|]. split.
      * rewrite length_app, Hlen. simpl. lia.
      * apply Forall_app. split; [done|]. constructor; [by eexists | done].
    + rewrite Hhere, Hfilter. apply filter_by_subtype_raises.
      intros Hall. rewrite Forall_forall in Hall.
      destruct (Hall m Hin) as [s Hs]. congruence.
Qed.

(** C4.  With [min_days_old = 0] the cutoff is the timestamp of the current
    date shifted by zero days, and it is the [latest] argument of the first
    history request; where that timestamp differs from the one 15 days
    earlier, the first request differs from the one made for an age that is
    not set. *)
Theorem zero_days_is_kept (tr : list (@event Timestamp)) :
  timestamp_x_days_ago env 0 None tr
  = (Ret (arrow_timestamp env (arrow_shift_days env 0 (arrow_now env tr))), [])
  /\ head (history_calls
             (load_messages_from_channel env channel_id (Some 0) message_type
                message_subtype tr).2)
     = Some (LatestFloat (arrow_timestamp env (arrow_shift_days env 0 (arrow_now env tr))))
  /\ (arrow_timestamp env (arrow_shift_days env 0 (arrow_now env tr))
      <> arrow_timestamp env (arrow_shift_days env (-15) (arrow_now env tr)) ->
      head (history_calls
              (load_messages_from_channel env channel_id (Some 0) message_type
                 message_subtype tr).2)
      <> head (history_calls
                 (load_messages_from_channel env channel_id None message_type
                    message_subtype tr).2)).
Proof.
  assert (Hfirst : forall latest,
             head (history_calls (loop 10 ∅ latest tr).2) = Some latest).
  { intros latest. cbn [history_loop]. unfold mbind, M_bind, call_history.
    destruct (if negb _ then _ else _) as [[]]; done. }
  split; [done|]. rewrite !load_unfold, !Hfirst. split; [done|].
  intros Hdiffer [= Hsame]. by apply Hdiffer.
Qed.

(** C9.  With [min_days_old = None] the collector runs as with an age of 15
    days: the [latest] argument of its first request is the timestamp of the
    current date shifted back by 15 days. *)
Theorem unset_days_is_15 (tr : list (@event Timestamp)) :
  load_messages_from_channel env channel_id None message_type message_subtype tr
  = load_messages_from_channel env channel_id (Some 15) message_type message_subtype tr
  /\ head (history_calls
             (load_messages_from_channel env channel_id None message_type
                message_subtype tr).2)
     = Some (LatestFloat
               (arrow_timestamp env (arrow_shift_days env (-15) (arrow_now env tr)))).
Proof.
  rewrite !load_unfold. split; [done|].
  cbn [history_loop]. unfold mbind, M_bind, call_history.
  destruct (if negb _ then _ else _) as [[]]; done.
Qed.

End Collector.

Section Orchestration.
Context {Date Timestamp : Type} (env : @environment Date Timestamp).

(** The names in the dictionary are the stripped names of the channels. *)
Lemma mapping_lookup_None (channels : list (string * string)) (name : string) :
  mapping_channels_and_id channels !! name = None
  <-> name ∉ ((fun c => remove_hash c.2) <$> channels).
Proof.
  unfold mapping_channels_and_id.
  assert (Hgen : forall (mapping : gmap string string),
             foldl (fun mapping '(id_channel, channel_name) =>
                      <[remove_hash channel_name := id_channel]> mapping) mapping channels
             !! name = None
             <-> mapping !! name = None /\ name ∉ ((fun c => remove_hash c.2) <$> channels)).
  { induction channels as [|[id_channel channel_name] rest IH]; intros mapping.
    - simpl. split; [intros ?; split; [done | apply not_elem_of_nil] | by intros [? _]].
    - cbn [foldl]. rewrite IH, fmap_cons, not_elem_of_cons. simpl.
      rewrite lookup_insert_None. naive_solver. }
  rewrite Hgen, lookup_empty. naive_solver.
Qed.

(** The loop over the rules raises at the first rule whose channel is not in
    the dictionary, after logging the error and nothing else. *)
Lemma resolve_rules_raises (mapping : gmap string string) (rules : list rule) :
  (exists r, r ∈ rules /\ mapping !! remove_hash (r_channel r) = None) ->
  exists r,
    r ∈ rules /\ mapping !! remove_hash (r_channel r) = None
    /\ forall tr : list (@event Timestamp),
         resolve_rules mapping rules tr
         = (Raise (Exception (unknown_channel (remove_hash (r_channel r)))),
            [Log ERROR (unknown_channel (remove_hash (r_channel r)))]).
Proof.
  induction rules as [|r rest IH]; intros (bad & Hin & Hbad).
  - by apply elem_of_nil in Hin.
  - destruct (mapping !! remove_hash (r_channel r)) as [id|] eqn:Hr.
    + apply elem_of_cons in Hin as [-> | Hin]; [congruence|].
      destruct (IH ltac:(by exists bad)) as (r' & Hin' & Hbad' & Hrun).
      exists r'. split; [by right|]. split; [done|].
      intros tr. cbn [resolve_rules]. rewrite Hr.
      unfold mbind, M_bind. by rewrite Hrun.
    + exists r. split; [by left|]. split; [done|].
      intros tr. cbn [resolve_rules]. by rewrite Hr.
Qed.

(** C8.  If the channel of some rule, stripped of hash signs, is not among
    the stripped names of the channels the service lists, then
    [map_channels_to_their_id] raises, and so does [delete_messages], for a
    rule with such a channel; the events of the run are the channel listing
    and the error line: no history request and no delete request is made. *)
Theorem unknown_channel_aborts (fuel : nat) (slack_token : string) (rules : list rule)
    (tr : list (@event Timestamp)) :
  (exists r, r ∈ rules
             /\ remove_hash (r_channel r)
                ∉ ((fun c => remove_hash (c_name c)) <$> conversations_list env tr)) ->
  exists r,
    r ∈ rules
    /\ (remove_hash (r_channel r)
        ∉ (fun c => remove_hash (c_name c)) <$> conversations_list env tr)
    /\ map_channels_to_their_id env rules tr
       = (Raise (Exception (unknown_channel (remove_hash (r_channel r)))),
          [ApiCall ConversationsList;
           Log ERROR (unknown_channel (remove_hash (r_channel r)))])
    /\ delete_messages env fuel slack_token rules tr
       = (Raise (Exception (unknown_channel (remove_hash (r_channel r)))),
          [ApiCall ConversationsList;
           Log ERROR (unknown_channel (remove_hash (r_channel r)))]).
Proof.
  intros (bad & Hin & Hbad).
  set (channels := (fun c => (c_id c, c_name c)) <$> conversations_list env tr).
  assert (Hnames : (fun c => remove_hash c.2) <$> channels
                   = (fun c => remove_hash (c_name c)) <$> conversations_list env tr).
  { unfold channels. rewrite <- list_fmap_compose. done. }
  destruct (resolve_rules_raises (mapping_channels_and_id channels) rules)
    as (r & Hr & Hnone & Hrun).
  { exists bad. split; [done|]. apply mapping_lookup_None. by rewrite Hnames. }
  exists r. split; [done|]. split.
  { rewrite <- Hnames. by apply mapping_lookup_None. }
  assert (Hmap : map_channels_to_their_id env rules tr
                 = (Raise (Exception (unknown_channel (remove_hash (r_channel r)))),
                    [ApiCall ConversationsList;
                     Log ERROR (unknown_channel (remove_hash (r_channel r)))])).
  { unfold map_channels_to_their_id, list_of_channels, mbind, M_bind, call_list,
      mret, M_ret.
    simpl. fold channels. rewrite Hrun. done. }
  split; [done|].
  unfold delete_messages, mbind, M_bind. by rewrite Hmap.
Qed.

End Orchestration.


(** * More about the deleter *)

Section DeleterMore.
Context {Date Timestamp : Type} (env : @environment Date Timestamp).

Lemma py_int_answers v : py_int v <> Diverge.
Proof. destruct v as [|s|z]; simpl; [done | | done]. by destruct (int_of_string s). Qed.

(** One turn of the loop on an identifier that is no longer pending, when
    the attempt is not rate limited: [remove] raises. *)
Lemma delete_loop_absent channel ts rest missing n (tr : list (@event Timestamp)) :
  not_rate_limited (chat_delete env tr channel ts) ->
  ts ∉ missing ->
  delete_loop env channel (ts :: rest) missing n tr
  = (Raise (KeyError ts), attempt_events channel ts (chat_delete env tr channel ts)).
Proof.
  intros Hres Hout.
  cbn [delete_loop]. unfold mbind, M_bind, call_delete, attempt_events.
  unfold set_remove, lift, log, emit, mret, M_ret.
  destruct Hres as [Hok | (error & Hok & Hkey & Herr)]; rewrite Hok; simpl.
  - by rewrite bool_decide_eq_false_2 by done.
  - rewrite Hkey, Herr. simpl. by rewrite bool_decide_eq_false_2 by done.
Qed.

(** One turn of the loop on a failure without retry-after key and without
    error text: reading the text raises. *)
Lemma delete_loop_no_error channel ts rest missing n (tr : list (@event Timestamp)) :
  d_ok (chat_delete env tr channel ts) = false ->
  has_retry_after (response_headers (chat_delete env tr channel ts)) = false ->
  d_error (chat_delete env tr channel ts) = None ->
  delete_loop env channel (ts :: rest) missing n tr
  = (Raise (KeyError "error"), [ApiCall (ChatDelete channel ts)]).
Proof.
  intros Hok Hkey Herr.
  cbn [delete_loop]. unfold mbind, M_bind, call_delete, lift.
  rewrite Hok. simpl. by rewrite Hkey, Herr.
Qed.

(** The four ways a response can be. *)
Lemma response_cases (res : delete_response) :
  not_rate_limited res \/ rate_limited res
  \/ (d_ok res = false /\ has_retry_after (response_headers res) = false
      /\ d_error res = None).
Proof.
  unfold not_rate_limited, rate_limited, failed_plainly.
  destruct (d_ok res); [left; by left|].
  destruct (has_retry_after _); [by right; left|].
  destruct (d_error res) as [error|]; [|by right; right].
  left. right. by exists error.
Qed.

(** What a run of the loop leaves, whatever the service answers. *)
Lemma delete_loop_shape channel messages missing n (tr : list (@event Timestamp)) :
  exists k,
    (k <= length messages)%nat
    /\ deleted_ts (delete_loop env channel messages missing n tr).2 = take k messages
    /\ Forall (is_pass_event channel) (delete_loop env channel messages missing n tr).2
    /\ match (delete_loop env channel messages missing n tr).1 with
       | Ret (Finished pending counted) =>
           k = length messages /\ pending = missing ∖ list_to_set messages
           /\ counted = (n + length messages)%nat
       | Ret (Paused pending _) =>
           exists j, k = S j /\ pending = missing ∖ list_to_set (take j messages)
       | Raise _ => (0 < k)%nat
       | Diverge => False
       end.
Proof.
  revert missing n tr.
  induction messages as [|ts rest IH]; intros missing n tr.
  - exists 0%nat. cbn. split; [lia|]. split; [done|]. split; [done|].
    split; [done|]. split; [set_solver | lia].
  - assert (Hcall : is_pass_event (Timestamp := Timestamp) channel
                      (ApiCall (ChatDelete channel ts))) by (left; by eexists).
    assert (Hattempt : Forall (is_pass_event channel)
                         (attempt_events (Timestamp := Timestamp) channel ts
                            (chat_delete env tr channel ts))).
    { unfold attempt_events. constructor; [done|].
      destruct (d_ok _); [done|]. destruct (d_error _); [|done].
      constructor; [|done]. right. by do 2 eexists. }
    destruct (response_cases (chat_delete env tr channel ts))
      as [Hpass | [Hlim | (Hok & Hkey & Herr)]].
    + destruct (decide (ts ∈ missing)) as [Hin|Hout].
      * rewrite delete_loop_step by done.
        destruct (IH (missing ∖ {[ts]}) (S n)
                    (tr ++ attempt_events channel ts (chat_delete env tr channel ts)))
          as (k & Hk & Hcalls & Hall & Hend).
        exists (S k). unfold prefixed. cbn [fst snd].
        split; [simpl; lia|].
        split; [by rewrite deleted_ts_app, deleted_ts_attempt, Hcalls|].
        split; [by apply Forall_app|].
        destruct (delete_loop env channel rest _ _ _).1 as [[pending w|pending counted]|e|].
        -- destruct Hend as (j & -> & ->). exists (S j). split; [done|].
           rewrite firstn_cons. set_solver.
        -- destruct Hend as (-> & -> & ->). split; [done|].
           split; [set_solver | simpl; lia].
        -- lia.
        -- done.
      * rewrite delete_loop_absent by done. exists 1%nat. cbn [fst snd].
        split; [simpl; lia|]. split; [by rewrite deleted_ts_attempt|].
        split; [done | lia].
    + rewrite delete_loop_rate_limited by done.
      pose proof (py_int_answers (retry_after_value
                    (response_headers (chat_delete env tr channel ts)))) as Hint.
      exists 1%nat. destruct (py_int _) as [w|e|]; [| |done]; cbn [fst snd].
      * split; [simpl; lia|]. split; [done|].
        split; [constructor; [done|]; constructor; [|done]; right; by do 2 eexists|].
        exists 0%nat. split; [done|]. rewrite take_0. set_solver.
      * split; [simpl; lia|]. split; [done|].
        split; [by constructor | lia].
    + rewrite delete_loop_no_error by done. exists 1%nat. cbn [fst snd].
      split; [simpl; lia|]. split; [done|].
      split; [by constructor | lia].
Qed.

Lemma delete_channel_messages_unfold channel messages (tr : list (@event Timestamp)) :
  delete_channel_messages env channel messages tr
  = (match (delete_loop env channel messages (list_to_set messages) 0 tr).1 with
     | Ret (Paused pending retry_after) => Ret (Some (pending, retry_after))
     | Ret (Finished _ _) => Ret None
     | Raise e => Raise e
     | Diverge => Diverge
     end,
     (delete_loop env channel messages (list_to_set messages) 0 tr).2).
Proof.
  unfold delete_channel_messages, mbind, M_bind, mret, M_ret, prefixed.
  destruct (delete_loop env channel messages _ _ tr) as [[[pending w|pending c]|e|] evs];
    simpl; by rewrite ?app_nil_r.
Qed.

Lemma delete_error_contains ts_message channel_id error :
  contains (delete_error ts_message channel_id error) ts_message
  /\ contains (delete_error ts_message channel_id error) channel_id
  /\ contains (delete_error ts_message channel_id error) error.
Proof.
  unfold contains, delete_error. split; [|split].
  - by exists "Error deleting the message ",
      (" from the channel " +:+ channel_id +:+ ": " +:+ error).
  - exists ("Error deleting the message " +:+ ts_message +:+ " from the channel "),
      (": " +:+ error).
    by rewrite !append_assoc.
  - exists ("Error deleting the message " +:+ ts_message +:+ " from the channel "
            +:+ channel_id +:+ ": "), "".
    by rewrite append_empty_r, !append_assoc.
Qed.

(** C6, amended.  In a pass over a set of identifiers where every attempt is
    done or fails without a retry-after key and with an error text: after
    the first [j] attempts, for every [j], the pending set is exactly the set
    of the identifiers after them, so a failed identifier has left it; every
    identifier gets its delete request, in order, also after an attempt that
    failed; each failed attempt leaves an error line that holds the
    identifier, the channel and the error text; and the pass returns [None]. *)
Theorem plain_failures_are_skipped channel messages (tr : list (@event Timestamp)) resp :
  NoDup messages ->
  deletes_answered env tr channel resp ->
  (forall i, (i < length messages)%nat -> not_rate_limited (resp i)) ->
  delete_channel_messages env channel messages tr
  = (Ret None, pass_events channel resp 0 messages)
  /\ deleted_ts (pass_events (Timestamp := Timestamp) channel resp 0 messages) = messages
  /\ (forall j,
        (j <= length messages)%nat ->
        delete_loop env channel (take j messages) (list_to_set messages) 0 tr
        = (Ret (Finished (list_to_set (drop j messages)) j),
           pass_events channel resp 0 (take j messages)))
  /\ (forall i ts error,
        messages !! i = Some ts ->
        failed_plainly (resp i) error ->
        Log ERROR (delete_error ts channel error)
          ∈ pass_events (Timestamp := Timestamp) channel resp 0 messages
        /\ contains (delete_error ts channel error) ts
        /\ contains (delete_error ts channel error) channel
        /\ contains (delete_error ts channel error) error
        /\ ts ∉ (list_to_set (drop (S i) messages) : gset string)).
Proof.
  intros Hnd Hresp Hpass.
  assert (Hstate : forall j,
             (j <= length messages)%nat ->
             delete_loop env channel (take j messages) (list_to_set messages) 0 tr
             = (Ret (Finished (list_to_set (drop j messages)) j),
                pass_events channel resp 0 (take j messages))).
  { intros j Hj.
    assert (Hlen : length (take j messages) = j) by (rewrite length_take; lia).
    assert (Hsplit : NoDup (take j messages ++ drop j messages))
      by (by rewrite take_drop).
    apply NoDup_app in Hsplit as (Hndpre & Hdisj & _).
    pose proof (delete_loop_prefix env channel resp tr Hresp (take j messages) []
                  (list_to_set messages) 0%nat [] Hndpre) as Hrun.
    change (length (deleted_ts [])) with 0%nat in Hrun.
    rewrite !app_nil_r, Nat.add_0_l, Hlen in Hrun. cbn [app delete_loop] in Hrun.
    assert (Hpending : list_to_set messages ∖ list_to_set (take j messages)
                       = (list_to_set (drop j messages) : gset string)).
    { rewrite <- (take_drop j messages) at 1. rewrite list_to_set_app_L. set_solver. }
    rewrite Hpending in Hrun. rewrite Hrun.
    - unfold prefixed, mret, M_ret. cbn [fst snd]. by rewrite app_nil_r.
    - intros x Hx. apply elem_of_list_to_set. by apply (subseteq_take j messages).
    - intros i Hi. apply Hpass. lia. }
  split; [|split; [apply deleted_ts_pass|split; [exact Hstate|]]].
  - pose proof (Hstate (length messages) ltac:(lia)) as Hall.
    rewrite firstn_all, drop_all in Hall.
    rewrite delete_channel_messages_unfold, Hall. done.
  - intros i ts error Hi Hfail.
    split; [by apply (failures_logged channel resp messages 0 i ts error)|].
    destruct (delete_error_contains ts channel error) as (Hts & Hchannel & Herror).
    split; [done|]. split; [done|]. split; [done|].
    intros Hin%elem_of_list_to_set.
    rewrite <- (take_drop (S i) messages) in Hnd.
    apply NoDup_app in Hnd as (_ & Hdisj & _). apply (Hdisj ts); [|done].
    rewrite (take_S_r _ _ _ Hi). apply elem_of_app. right. by left.
Qed.

(** X1.  Whatever the service answers and however the pass ends, the delete
    requests of a pass are the first identifiers of [messages], in order and
    once for each position; the pass leaves nothing but delete requests for
    its channel and log lines; and a pass that returns [None] has requested
    every identifier. *)
Theorem pass_requests_are_a_prefix channel messages (tr : list (@event Timestamp)) :
  exists k,
    (k <= length messages)%nat
    /\ deleted_ts (delete_channel_messages env channel messages tr).2 = take k messages
    /\ Forall (is_pass_event channel) (delete_channel_messages env channel messages tr).2
    /\ match (delete_channel_messages env channel messages tr).1 with
       | Ret None => k = length messages
       | _ => True
       end.
Proof.
  rewrite delete_channel_messages_unfold. cbn [fst snd].
  destruct (delete_loop_shape channel messages (list_to_set messages) 0 tr)
    as (k & Hk & Hcalls & Hall & Hend).
  exists k. split; [done|]. split; [done|]. split; [done|].
  destruct (delete_loop env channel messages _ _ tr).1 as [[pending w|pending c]|e|];
    [done | | done..].
  by destruct Hend.
Qed.

(** X2.  Whatever the service answers, a pass that returns a pair has made
    its last delete request for some position [j] of [messages], and the
    pending set of the pair is the set of [messages] without the identifiers
    at the positions before [j]: a subset of what the pass was given. *)
Theorem paused_pending_is_the_rest channel messages (tr : list (@event Timestamp))
    pending retry_after evs :
  delete_channel_messages env channel messages tr
  = (Ret (Some (pending, retry_after)), evs) ->
  exists j,
    (j < length messages)%nat
    /\ deleted_ts evs = take (S j) messages
    /\ pending = list_to_set messages ∖ list_to_set (take j messages)
    /\ pending ⊆ list_to_set messages.
Proof.
  rewrite delete_channel_messages_unfold.
  destruct (delete_loop_shape channel messages (list_to_set messages) 0 tr)
    as (k & Hk & Hcalls & Hall & Hend).
  destruct (delete_loop env channel messages _ _ tr) as [[[p w|p c]|e|] evs']; [|done..].
  cbn [fst snd] in *. intros [= -> -> ->].
  destruct Hend as (j & -> & ->). exists j.
  split; [lia|]. split; [done|]. split; [done|]. set_solver.
Qed.

(** A run of attempts on a service that never rate limits. *)
Lemma delete_loop_unlimited channel :
  (forall (tr : list (@event Timestamp)) ts,
     not_rate_limited (chat_delete env tr channel ts)) ->
  forall pre rest missing n tr,
    NoDup pre ->
    (forall ts, ts ∈ pre -> ts ∈ missing) ->
    exists evs,
      deleted_ts evs = pre
      /\ sleeps evs = []
      /\ delete_loop env channel (pre ++ rest) missing n tr
         = prefixed evs
             (delete_loop env channel rest (missing ∖ list_to_set pre)
                (n + length pre) (tr ++ evs)).
Proof.
  intros Hfree pre. induction pre as [|ts pre IH]; intros rest missing n tr Hnd Hin.
  - exists []. split; [done|]. split; [done|].
    rewrite prefixed_nil, app_nil_r, Nat.add_0_r. cbn [app].
    by assert (missing ∖ list_to_set [] = missing) as -> by set_solver.
  - apply NoDup_cons in Hnd as [Hts Hnd].
    cbn [app]. rewrite delete_loop_step by (by apply Hfree || (apply Hin; by left)).
    set (evs0 := attempt_events channel ts (chat_delete env tr channel ts)).
    destruct (IH rest (missing ∖ {[ts]}) (S n) (tr ++ evs0) Hnd) as (evs & Hcalls & Hsl & Hrun).
    { intros x Hx. apply elem_of_difference. split; [apply Hin; by right|].
      intros ->%elem_of_singleton. done. }
    exists (evs0 ++ evs). split; [|split].
    + unfold evs0. by rewrite deleted_ts_app, deleted_ts_attempt, Hcalls.
    + unfold sleeps in *. rewrite omap_app, Hsl. unfold evs0, attempt_events.
      destruct (d_ok _); [done|]. by destruct (d_error _).
    + rewrite Hrun, prefixed_prefixed, <- app_assoc.
      assert (missing ∖ {[ts]} ∖ list_to_set pre = missing ∖ list_to_set (ts :: pre))
        as -> by set_solver.
      by assert (S n + length pre = n + length (ts :: pre))%nat as -> by (simpl; lia).
Qed.

(** X3.  On a service that never rate limits, a list that repeats an
    identifier makes the pass raise [KeyError] for that identifier at its
    second occurrence, after the delete request for it was made again. *)
Theorem repeated_identifier_raises channel pre ts post (tr : list (@event Timestamp)) :
  (forall (tr' : list (@event Timestamp)) ts',
     not_rate_limited (chat_delete env tr' channel ts')) ->
  NoDup pre ->
  ts ∈ pre ->
  exists evs,
    delete_channel_messages env channel (pre ++ ts :: post) tr = (Raise (KeyError ts), evs)
    /\ deleted_ts evs = pre ++ [ts].
Proof.
  intros Hfree Hnd Hts. rewrite delete_channel_messages_unfold.
  destruct (delete_loop_unlimited channel Hfree pre (ts :: post)
              (list_to_set (pre ++ ts :: post)) 0%nat tr Hnd)
    as (evs & Hcalls & _ & Hrun).
  { intros x Hx. apply elem_of_list_to_set, elem_of_app. by left. }
  rewrite Hrun, delete_loop_absent; [| apply Hfree | set_solver].
  unfold prefixed. cbn [fst snd]. eexists. split; [done|].
  by rewrite deleted_ts_app, deleted_ts_attempt, Hcalls.
Qed.

(** X4.  When the attempts before the [k]-th are not rate limited and the
    [k]-th fails without a retry-after key and without an error text, the
    pass raises [KeyError] for the key ['error'] after the [k]-th delete
    request: nothing is logged for it and no pending set is returned. *)
Theorem failure_without_error_text_raises channel messages (tr : list (@event Timestamp))
    resp k :
  NoDup messages ->
  deletes_answered env tr channel resp ->
  (k < length messages)%nat ->
  (forall i, (i < k)%nat -> not_rate_limited (resp i)) ->
  d_ok (resp k) = false ->
  has_retry_after (response_headers (resp k)) = false ->
  d_error (resp k) = None ->
  exists evs ts,
    messages !! k = Some ts
    /\ delete_channel_messages env channel messages tr
       = (Raise (KeyError "error"), evs ++ [ApiCall (ChatDelete channel ts)])
    /\ deleted_ts evs = take k messages.
Proof.
  intros Hnd Hresp Hk Hpass Hok Hkey Herr.
  destruct (lookup_lt_is_Some_2 messages k Hk) as [ts Hts].
  pose proof (take_drop_middle messages k ts Hts) as Hsplit.
  assert (Hlen : length (take k messages) = k) by (rewrite length_take; lia).
  assert (Hnd' : NoDup (take k messages ++ ts :: drop (S k) messages))
    by (by rewrite Hsplit).
  apply NoDup_app in Hnd' as (Hndpre & _ & _).
  pose proof (delete_loop_prefix env channel resp tr Hresp (take k messages)
                (ts :: drop (S k) messages) (list_to_set messages) 0%nat []
                Hndpre) as Hrun.
  change (length (deleted_ts [])) with 0%nat in Hrun.
  rewrite Hsplit, app_nil_r, Nat.add_0_l, Hlen in Hrun. cbn [app] in Hrun.
  set (evs1 := pass_events channel resp 0 (take k messages)) in *.
  assert (Hhere : chat_delete env (tr ++ evs1) channel ts = resp k).
  { rewrite Hresp. unfold evs1. by rewrite deleted_ts_pass, Hlen. }
  rewrite delete_loop_no_error in Hrun by (by rewrite Hhere).
  exists evs1, ts. split; [done|]. split; [|apply deleted_ts_pass].
  rewrite delete_channel_messages_unfold, Hrun; [done | |].
  - intros x Hx. apply elem_of_list_to_set. by apply (subseteq_take k messages).
  - intros i Hi. apply Hpass. lia.
Qed.

End DeleterMore.

(** * More about the resolution of channels *)

Section ResolutionMore.
Context {Date Timestamp : Type} (env : @environment Date Timestamp).

Lemma remove_hash_idemp s : remove_hash (remove_hash s) = remove_hash s.
Proof.
  induction s as [|c s IH]; [done|]. simpl.
  destruct (Ascii.eqb c "#") eqn:Hc; [done|]. simpl. by rewrite Hc, IH.
Qed.

Lemma listed_mapping_None channels name :
  listed_mapping channels !! name = None
  <-> name ∉ (fun c => remove_hash (c_name c)) <$> channels.
Proof.
  unfold listed_mapping. rewrite mapping_lookup_None, <- list_fmap_compose. done.
Qed.

(** A later channel of the same stripped name overwrites an earlier one. *)
Lemma listed_mapping_last before c after :
  remove_hash (c_name c) ∉ (fun c' => remove_hash (c_name c')) <$> after ->
  listed_mapping (before ++ c :: after) !! remove_hash (c_name c) = Some (c_id c).
Proof.
  unfold listed_mapping, mapping_channels_and_id.
  rewrite fmap_app, foldl_app, fmap_cons. cbn [foldl].
  generalize (foldl (fun mapping '(id_channel, channel_name) =>
                       <[remove_hash channel_name := id_channel]> mapping)
                (∅ : gmap string string) ((fun c0 => (c_id c0, c_name c0)) <$> before)).
  intros m. generalize (c_id c) as id. generalize (remove_hash (c_name c)) as name.
  intros name id.
  assert (Hkeep : forall (m' : gmap string string),
             name ∉ (fun c' => remove_hash (c_name c')) <$> after ->
             foldl (fun mapping '(id_channel, channel_name) =>
                      <[remove_hash channel_name := id_channel]> mapping)
               m' ((fun c0 => (c_id c0, c_name c0)) <$> after) !! name = m' !! name).
  { induction after as [|c' after IH]; intros m' Hnot; [done|].
    rewrite fmap_cons in Hnot. apply not_elem_of_cons in Hnot as [Hne Hnot].
    rewrite fmap_cons. cbn [foldl]. rewrite IH by done. by rewrite lookup_insert_ne. }
  intros Hnot. rewrite Hkeep by done. apply lookup_insert_eq.
Qed.

(** The loop over rules that are all in the dictionary. *)
Lemma resolve_rules_succeeds (mapping : gmap string string) (rules : list rule)
    (tr : list (@event Timestamp)) :
  (forall r, r ∈ rules -> is_Some (mapping !! remove_hash (r_channel r))) ->
  resolve_rules mapping rules tr = (Ret (resolved mapping <$> rules), []).
Proof.
  revert tr. induction rules as [|r rest IH]; intros tr Hall; [done|].
  cbn [resolve_rules]. destruct (Hall r ltac:(by left)) as [id Hid].
  rewrite Hid. unfold mbind, M_bind.
  rewrite IH by (intros r' Hr'; apply Hall; by right).
  rewrite fmap_cons. unfold resolved at 2. by rewrite Hid.
Qed.

Lemma map_channels_unfold (rules : list rule) (tr : list (@event Timestamp)) :
  map_channels_to_their_id env rules tr
  = prefixed [ApiCall ConversationsList]
      (resolve_rules (listed_mapping (conversations_list env tr)) rules
         (tr ++ [ApiCall ConversationsList])).
Proof.
  unfold map_channels_to_their_id, list_of_channels, mbind, M_bind, call_list,
    mret, M_ret, listed_mapping.
  simpl. by rewrite ?app_nil_r.
Qed.

(** X5.  When the name of every rule, stripped of hash signs, is the
    stripped name of a listed channel, [map_channels_to_their_id] makes the
    one listing request and returns the rules in the same order, each with
    its name stripped, its days untouched and the id of a listed channel of
    that stripped name. *)
Theorem known_channels_are_resolved (rules : list rule) (tr : list (@event Timestamp)) :
  (forall r, r ∈ rules -> resolvable (conversations_list env tr) r) ->
  map_channels_to_their_id env rules tr
  = (Ret (resolved (listed_mapping (conversations_list env tr)) <$> rules),
     [ApiCall ConversationsList])
  /\ forall i r,
       rules !! i = Some r ->
       exists c,
         c ∈ conversations_list env tr
         /\ remove_hash (c_name c) = remove_hash (r_channel r)
         /\ (resolved (listed_mapping (conversations_list env tr)) <$> rules) !! i
            = Some {| r_channel := remove_hash (r_channel r);
                      r_days := r_days r;
                      r_id := Some (c_id c) |}.
Proof.
  intros Hall.
  assert (Hsome : forall r, r ∈ rules ->
             is_Some (listed_mapping (conversations_list env tr)
                      !! remove_hash (r_channel r))).
  { intros r Hr. apply not_eq_None_Some. intros Hnone%listed_mapping_None.
    by apply Hnone, Hall. }
  split.
  - rewrite map_channels_unfold, resolve_rules_succeeds by done. done.
  - intros i r Hi. rewrite list_lookup_fmap, Hi. simpl.
    assert (Hr : r ∈ rules) by (by eapply list_elem_of_lookup_2).
    pose proof (Hall r Hr) as Hin. unfold resolvable in Hin.
    apply list_elem_of_fmap in Hin as (c0 & Hname & Hc0).
    (* the last listed channel of that name *)
    assert (Hlast : forall channels,
               (exists c1, c1 ∈ channels
                           /\ remove_hash (c_name c1) = remove_hash (r_channel r)) ->
               exists before c after,
                 channels = before ++ c :: after
                 /\ remove_hash (c_name c) = remove_hash (r_channel r)
                 /\ remove_hash (r_channel r)
                    ∉ ((fun c' => remove_hash (c_name c')) <$> after)).
    { induction channels as [|c1 channels IH]; intros (c2 & Hc2 & Hn2).
      - by apply elem_of_nil in Hc2.
      - destruct (decide (remove_hash (r_channel r)
                          ∈ (fun c' => remove_hash (c_name c')) <$> channels)) as [Hlater|Hno].
        + apply list_elem_of_fmap in Hlater as (c3 & Hn3 & Hc3).
          destruct (IH ltac:(by exists c3)) as (before & c & after & -> & Hc & Hafter).
          by exists (c1 :: before), c, after.
        + apply elem_of_cons in Hc2 as [-> | Hc2].
          * by exists [], c1, channels.
          * destruct Hno. apply list_elem_of_fmap. by exists c2. }
    destruct (Hlast (conversations_list env tr) ltac:(by exists c0))
      as (before & c & after & Hsplit & Hc & Hafter).
    exists c. split; [rewrite Hsplit; set_solver|]. split; [done|].
    unfold resolved. do 2 f_equal.
    rewrite Hsplit, <- Hc. apply listed_mapping_last. by rewrite Hc.
Qed.

(** X6.  When two listed channels have the same stripped name, the rule
    gets the id of the one listed last. *)
Theorem later_channel_wins (rules : list rule) (tr : list (@event Timestamp))
    before c after i r :
  (forall r', r' ∈ rules -> resolvable (conversations_list env tr) r') ->
  conversations_list env tr = before ++ c :: after ->
  remove_hash (c_name c) ∉ ((fun c' => remove_hash (c_name c')) <$> after) ->
  rules !! i = Some r ->
  remove_hash (r_channel r) = remove_hash (c_name c) ->
  exists rules',
    map_channels_to_their_id env rules tr = (Ret rules', [ApiCall ConversationsList])
    /\ r_id <$> rules' !! i = Some (Some (c_id c)).
Proof.
  intros Hall Hsplit Hafter Hi Hname.
  assert (Hsome : forall r', r' ∈ rules ->
             is_Some (listed_mapping (conversations_list env tr)
                      !! remove_hash (r_channel r'))).
  { intros r' Hr'. apply not_eq_None_Some. intros Hnone%listed_mapping_None.
    by apply Hnone, Hall. }
  eexists. split.
  - rewrite map_channels_unfold, resolve_rules_succeeds by done. done.
  - rewrite list_lookup_fmap, Hi. simpl.
    rewrite Hname, Hsplit. by rewrite listed_mapping_last.
Qed.

(** What a loop over the rules that returns has returned. *)
Lemma resolve_rules_returns (mapping : gmap string string) (rules rules' : list rule)
    (tr : list (@event Timestamp)) evs :
  resolve_rules mapping rules tr = (Ret rules', evs) ->
  rules' = resolved mapping <$> rules
  /\ forall r, r ∈ rules -> is_Some (mapping !! remove_hash (r_channel r)).
Proof.
  revert rules' tr evs. induction rules as [|r rest IH]; intros rules' tr evs.
  - cbn. intros [= <- _]. split; [done|]. by intros r ?%elem_of_nil.
  - cbn [resolve_rules].
    destruct (mapping !! remove_hash (r_channel r)) as [id|] eqn:Hid; [|done].
    unfold mbind, M_bind.
    destruct (resolve_rules mapping rest tr) as [[rest'|e|] evs'] eqn:Hrest; [|done..].
    destruct (IH rest' tr evs' Hrest) as [-> Hall].
    unfold prefixed, mret, M_ret. simpl. intros [= <- _]. split.
    + unfold resolved at 2. by rewrite Hid.
    + intros r' [-> | Hr']%elem_of_cons; [by rewrite Hid | by apply Hall].
Qed.

(** X7.  Resolving again the rules that [map_channels_to_their_id] has
    returned, against the same listing, returns them unchanged. *)
Theorem resolution_is_idempotent (rules rules' : list rule)
    (tr tr2 : list (@event Timestamp)) evs :
  map_channels_to_their_id env rules tr = (Ret rules', evs) ->
  conversations_list env tr2 = conversations_list env tr ->
  map_channels_to_their_id env rules' tr2 = (Ret rules', [ApiCall ConversationsList]).
Proof.
  rewrite !map_channels_unfold. intros Hrun Hsame. rewrite Hsame.
  set (mapping := listed_mapping (conversations_list env tr)) in *.
  destruct (resolve_rules mapping rules _) as [[rs|e|] evs'] eqn:Hres; [|done..].
  unfold prefixed in Hrun. cbn [fst snd] in Hrun. injection Hrun as <- _.
  apply resolve_rules_returns in Hres as [-> Hall].
  rewrite resolve_rules_succeeds.
  - unfold prefixed. cbn [fst snd]. do 2 f_equal.
    rewrite <- list_fmap_compose. apply list_fmap_ext. intros _ r _.
    unfold resolved. simpl. by rewrite !remove_hash_idemp.
  - intros r' (r & -> & Hr)%list_elem_of_fmap. simpl.
    rewrite remove_hash_idemp. by apply Hall.
Qed.


End ResolutionMore.

(** * More about the collector *)

Section CollectorMore.
Context {Date Timestamp : Type} (env : @environment Date Timestamp).
Context (channel_id : string) (message_type message_subtype : option string).

Local Abbreviation loop := (history_loop env channel_id message_type message_subtype).
Local Abbreviation request latest :=
  (ApiCall (ConversationsHistory channel_id latest 0 false 1000)).
Local Abbreviation answer tr latest :=
  (conversations_history env tr channel_id latest 0 false 1000).

Lemma truthy_str t : truthy (PStr t) = bool_decide (t <> "").
Proof.
  simpl. destruct (String.eqb_spec t ""); simpl.
  - by rewrite bool_decide_eq_false_2 by (intros ?; done).
  - by rewrite bool_decide_eq_true_2.
Qed.

Lemma filter_by_subtype_returns st new_messages kept :
  filter_by_subtype st new_messages = Ret kept ->
  kept = filter (fun m => m_subtype m = Some st) new_messages.
Proof.
  revert kept. induction new_messages as [|m rest IH]; intros kept; simpl.
  - by intros [= <-].
  - destruct (m_subtype m) as [s|] eqn:Hm; [|done].
    destruct (filter_by_subtype st rest) as [kept'| |]; [|done..].
    intros [= <-]. rewrite (IH kept' eq_refl).
    destruct (String.eqb_spec s st) as [->|Hne].
    + by rewrite filter_cons_True by (by rewrite Hm).
    + rewrite filter_cons_False; [done|]. rewrite Hm. congruence.
Qed.

Lemma filter_all (P : message -> Prop) `{!forall m, Decision (P m)} (l : list message) :
  (forall m, P m) -> filter P l = l.
Proof.
  intros HP. induction l as [|m l IH]; [done|].
  by rewrite filter_cons_True, IH by done.
Qed.

(** X9.  When the filters of a turn return, they return the messages of
    the page that have the requested type and the requested subtype, in the
    order of the page; a filter that is [None] or the empty string keeps
    every message. *)
Theorem filters_keep_the_wanted new_messages kept :
  filter_page message_type message_subtype new_messages = Ret kept ->
  kept = filter (wanted message_type message_subtype) new_messages.
Proof.
  unfold filter_page. intros Hkept.
  assert (Htype : filter_type message_type new_messages
                  = filter (type_wanted message_type) new_messages).
  { unfold filter_type, type_wanted. destruct message_type as [t|].
    - rewrite truthy_str. case_bool_decide as Ht.
      + apply list_filter_iff. intros m. naive_solver.
      + symmetry. apply filter_all. intros m. by left.
    - symmetry. by apply filter_all. }
  assert (Hsub : forall l,
             filter_subtype message_subtype l = Ret kept ->
             kept = filter (subtype_wanted message_subtype) l).
  { intros l. unfold filter_subtype, subtype_wanted. destruct message_subtype as [st|].
    - rewrite truthy_str. case_bool_decide as Hst.
      + intros ->%filter_by_subtype_returns. apply list_filter_iff.
        intros m. naive_solver.
      + intros [= <-]. symmetry. apply filter_all.
        intros m. by left.
    - intros [= <-]. symmetry. by apply filter_all. }
  rewrite (Hsub _ Hkept), Htype, list_filter_filter.
  apply list_filter_iff. intros m. unfold wanted. naive_solver.
Qed.

(** The events of a run of the loop, whatever the service answers. *)
Lemma loop_events n ts_messages latest (tr : list (@event Timestamp)) :
  Forall (is_history_request channel_id) (loop n ts_messages latest tr).2
  \/ exists evs error,
       loop n ts_messages latest tr
       = (Raise (Exception (history_error channel_id error)),
          evs ++ [Log ERROR (history_error channel_id error)])
       /\ Forall (is_history_request channel_id) evs.
Proof.
  revert ts_messages latest tr.
  induction n as [|n IH]; intros ts_messages latest tr; [by left|].
  assert (Hreq : is_history_request (Timestamp := Timestamp) channel_id (request latest))
    by (by eexists).
  cbn [history_loop]. unfold mbind, M_bind, call_history, lift, log, emit, raise, lift.
  destruct (h_ok _); simpl.
  - destruct (filter_page _ _ _) as [new_messages| |]; simpl;
      [|left; by constructor..].
    destruct (_ || _); simpl; [left; by constructor|].
    destruct (next_latest env _) as [latest'| |]; simpl; [|left; by constructor..].
    rewrite !app_nil_r.
    destruct (IH (ts_messages ∪ ts_of new_messages) latest' (tr ++ [request latest]))
      as [Hall | (evs & error & -> & Hall)].
    + left. by constructor.
    + right. exists (request latest :: evs), error. split; [done|]. by constructor.
  - destruct (h_error _) as [error|]; simpl; [|left; by constructor].
    right. exists [request latest], error. split; [done|]. by constructor.
Qed.

Lemma requests_do_not_delete (evs : list (@event Timestamp)) :
  Forall (is_history_request channel_id) evs -> deleted_ts evs = [] /\ sleeps evs = [].
Proof. induction 1 as [|e evs [latest ->] _ [IH1 IH2]]; [done|]. by split. Qed.

(** X10.  Whatever the service answers, the collector makes no request but
    history requests for its channel, with [oldest] 0, not inclusive, 1000 at
    a time; it never deletes and never sleeps; and it logs nothing, except the
    one error line that ends a run raising the exception of a failed page. *)
Theorem collector_only_reads min_days_old (tr : list (@event Timestamp)) :
  deleted_ts (load_messages_from_channel env channel_id min_days_old message_type
                message_subtype tr).2 = []
  /\ sleeps (load_messages_from_channel env channel_id min_days_old message_type
               message_subtype tr).2 = []
  /\ (Forall (is_history_request channel_id)
        (load_messages_from_channel env channel_id min_days_old message_type
           message_subtype tr).2
      \/ exists evs error,
           load_messages_from_channel env channel_id min_days_old message_type
             message_subtype tr
           = (Raise (Exception (history_error channel_id error)),
              evs ++ [Log ERROR (history_error channel_id error)])
           /\ Forall (is_history_request channel_id) evs).
Proof.
  rewrite load_unfold.
  destruct (loop_events 10 ∅ (LatestFloat
              (arrow_timestamp env (arrow_shift_days env (- default 15 min_days_old)
                                      (arrow_now env tr)))) tr)
    as [Hall | (evs & error & Hrun & Hall)].
  - destruct (requests_do_not_delete _ Hall) as [Hd Hs]. by repeat split; [..|left].
  - rewrite Hrun. cbn [snd].
    destruct (requests_do_not_delete _ Hall) as [Hd Hs].
    split; [by rewrite deleted_ts_app, Hd|].
    split; [unfold sleeps in *; by rewrite omap_app, Hs|].
    right. by exists evs, error.
Qed.



(** [min] returns the least string of a set that is not empty. *)
Lemma py_min_least (s : gset string) :
  match py_min s with
  | Some m => m ∈ s /\ forall x, x ∈ s -> String.leb m x = true
  | None => s = ∅
  end.
Proof.
  unfold py_min.
  assert (Hlist : forall l : list string,
             match foldr (fun x best =>
                            match best with
                            | None => Some x
                            | Some y => Some (if String.ltb x y then x else y)
                            end) None l with
             | Some m => m ∈ l /\ forall x, x ∈ l -> String.leb m x = true
             | None => l = []
             end).
  { induction l as [|x l IH]; [done|]. cbn [foldr].
    destruct (foldr _ None l) as [y|].
    - destruct IH as [Hy Hleast].
      assert (Hxy : if String.ltb x y then String.leb x y = true
                    else String.leb y x = true).
      { unfold String.ltb, String.leb. rewrite (String.compare_antisym y x).
        by destruct (String.compare x y). }
      destruct (String.ltb x y).
      + split; [by left|]. intros z [->|Hz]%elem_of_cons.
        * apply Is_true_true. apply (reflexivity (R := String.le)).
        * apply Is_true_true. apply (transitivity (R := String.le) (y := y)).
          -- by apply Is_true_true.
          -- apply Is_true_true. by apply Hleast.
      + split; [by right|]. intros z [->|Hz]%elem_of_cons; [done | by apply Hleast].
    - subst l. split; [by left|]. intros z [->|Hz]%elem_of_cons.
      + apply Is_true_true. apply (reflexivity (R := String.le)).
      + by apply elem_of_nil in Hz. }
  specialize (Hlist (elements s)).
  destruct (foldr _ None (elements s)) as [m|].
  - destruct Hlist as [Hm Hleast]. split; [by apply elem_of_elements|].
    intros x Hx. by apply Hleast, elem_of_elements.
  - by apply elements_empty_inv in Hlist as ->%leibniz_equiv.
Qed.

Lemma loop_no_error n ts_messages latest (tr : list (@event Timestamp)) :
  h_ok (answer tr latest) = false ->
  h_error (answer tr latest) = None ->
  loop (S n) ts_messages latest tr = (Raise (KeyError "error"), [request latest]).
Proof.
  intros Hok Herr. cbn [history_loop].
  unfold mbind, M_bind, call_history, lift. by rewrite Hok, Herr.
Qed.

(** The run up to the [k]-th page, when the pages before it bring new
    identifiers. *)
Lemma load_reaches resp min_days_old (tr : list (@event Timestamp)) k :
  history_answered env tr channel_id resp ->
  (k < 10)%nat ->
  (forall i, (i < k)%nat -> advances env message_type message_subtype resp i) ->
  exists evs latest n,
    length evs = k
    /\ Forall (is_history_request channel_id) evs
    /\ answer (tr ++ evs) latest = resp k
    /\ load_messages_from_channel env channel_id min_days_old message_type
         message_subtype tr
       = prefixed evs
           (loop (S n) (seen message_type message_subtype resp k) latest (tr ++ evs)).
Proof.
  intros Hresp Hk Hadv. rewrite load_unfold.
  destruct (loop_prefix env channel_id message_type message_subtype resp tr Hresp k
              (10 - k) [] (LatestFloat
                (arrow_timestamp env (arrow_shift_days env (- default 15 min_days_old)
                                        (arrow_now env tr)))) Hadv)
    as (evs & latest' & Hlen & Hreq & Hrun).
  replace (k + (10 - k))%nat with 10%nat in Hrun by lia.
  rewrite app_nil_r in Hrun.
  change (length (history_calls [])) with 0%nat in Hrun. cbn [Nat.add seen app] in Hrun.
  destruct (10 - k)%nat as [|n] eqn:Hn; [lia|].
  exists evs, latest', n. split; [done|]. split; [done|]. split; [|done].
  rewrite Hresp. by rewrite (history_calls_requests channel_id), Hlen.
Qed.

(** X12.  When a page that is reached is a failure without error text, the
    collector raises [KeyError] for the key ['error'] and logs nothing. *)
Theorem history_failure_without_error_text min_days_old (tr : list (@event Timestamp))
    resp k :
  history_answered env tr channel_id resp ->
  (k < 10)%nat ->
  (forall i, (i < k)%nat -> advances env message_type message_subtype resp i) ->
  h_ok (resp k) = false ->
  h_error (resp k) = None ->
  exists evs,
    load_messages_from_channel env channel_id min_days_old message_type message_subtype tr
    = (Raise (KeyError "error"), evs)
    /\ length evs = S k
    /\ Forall (is_history_request channel_id) evs.
Proof.
  intros Hresp Hk Hadv Hok Herr.
  destruct (load_reaches resp min_days_old tr k Hresp Hk Hadv)
    as (evs & latest & n & Hlen & Hreq & Hhere & ->).
  rewrite loop_no_error by (by rewrite Hhere).
  exists (evs ++ [request latest]). split; [done|]. split.
  - rewrite length_app, Hlen. simpl. lia.
  - apply Forall_app. split; [done|]. constructor; [by eexists | done].
Qed.

(** X13.  When a page that is reached brings new identifiers and its least
    identifier is not a float literal, the collector raises [ValueError] for
    that identifier and returns nothing of what it has collected. *)
Theorem least_identifier_must_be_a_float min_days_old (tr : list (@event Timestamp))
    resp k :
  history_answered env tr channel_id resp ->
  (k < 10)%nat ->
  (forall i, (i < k)%nat -> advances env message_type message_subtype resp i) ->
  readable message_type message_subtype (resp k) ->
  ~ page_ts message_type message_subtype (resp k)
    ⊆ seen message_type message_subtype resp k ->
  (forall m, m ∈ page_ts message_type message_subtype (resp k) ->
             (forall x, x ∈ page_ts message_type message_subtype (resp k) ->
                        String.leb m x = true) ->
             float_minus_eps env m = None) ->
  exists evs m,
    load_messages_from_channel env channel_id min_days_old message_type message_subtype tr
    = (Raise (ValueError m), evs)
    /\ m ∈ page_ts message_type message_subtype (resp k)
    /\ length evs = S k.
Proof.
  intros Hresp Hk Hadv Hread Hnew Hfloat.
  destruct (load_reaches resp min_days_old tr k Hresp Hk Hadv)
    as (evs & latest & n & Hlen & Hreq & Hhere & ->).
  rewrite (loop_advances env channel_id message_type message_subtype) by (by rewrite Hhere).
  rewrite Hhere. unfold next_latest.
  pose proof (py_min_least (page_ts message_type message_subtype (resp k))) as Hmin.
  destruct (py_min _) as [m|].
  - destruct Hmin as [Hm Hleast]. rewrite (Hfloat m Hm Hleast).
    exists (evs ++ [request latest]), m. split; [done|]. split; [done|].
    rewrite length_app, Hlen. simpl. lia.
  - destruct Hnew. rewrite Hmin. apply empty_subseteq.
Qed.

Lemma loop_first_request n ts_messages latest (tr : list (@event Timestamp)) :
  exists rest, (loop (S n) ts_messages latest tr).2 = request latest :: rest.
Proof.
  cbn [history_loop]. unfold mbind, M_bind, call_history.
  destruct (if negb _ then _ else _) as [[]]; by eexists.
Qed.




End CollectorMore.

(** * More about the orchestration *)

Section OrchestrationMore.
Context {Date Timestamp : Type} (env : @environment Date Timestamp).

(** X15.  On a service that never rate limits, the loop of passes ends after
    one pass, whatever fuel it has: every pending identifier gets one delete
    request and there is no sleep. *)
Theorem unlimited_service_needs_one_pass (fuel : nat) channel (missing : gset string)
    (tr : list (@event Timestamp)) :
  (forall (tr' : list (@event Timestamp)) ts,
     not_rate_limited (chat_delete env tr' channel ts)) ->
  exists evs,
    delete_passes env (S fuel) channel missing tr = (Ret tt, evs)
    /\ deleted_ts evs = elements missing
    /\ sleeps evs = [].
Proof.
  intros Hfree.
  destruct (delete_loop_unlimited env channel Hfree (elements missing) []
              (list_to_set (elements missing)) 0%nat tr (NoDup_elements missing))
    as (evs & Hcalls & Hsl & Hrun).
  { intros ts Hts. by apply elem_of_list_to_set. }
  rewrite app_nil_r in Hrun. cbn [delete_loop] in Hrun.
  exists evs. split; [|done].
  cbn [delete_passes]. unfold mbind, M_bind.
  rewrite delete_channel_messages_unfold, Hrun.
  unfold prefixed, mret, M_ret. cbn [fst snd]. by rewrite !app_nil_r.
Qed.

Lemma pass_events_do_not_sleep channel (evs : list (@event Timestamp)) :
  Forall (is_pass_event channel) evs -> sleeps evs = [].
Proof.
  induction 1 as [|e evs [[ts ->] | (l & msg & ->)] _ IH]; done.
Qed.

Lemma pass_does_not_sleep channel messages (tr : list (@event Timestamp)) :
  sleeps (delete_channel_messages env channel messages tr).2 = [].
Proof.
  rewrite delete_channel_messages_unfold. cbn [snd].
  destruct (delete_loop_shape env channel messages (list_to_set messages) 0 tr)
    as (k & _ & _ & Hall & _).
  by apply (pass_events_do_not_sleep channel).
Qed.


Lemma sleep_refuses_negative W (tr : list (@event Timestamp)) :
  - sleep_max <= W < 0 ->
  sleep W tr = (Raise (ValueError "sleep length must be non-negative"), []).
Proof.
  intros HW. unfold sleep, raise, lift.
  rewrite (proj2 (Z.ltb_ge W (- sleep_max))) by lia.
  rewrite (proj2 (Z.ltb_ge sleep_max W)) by (unfold sleep_max in *; lia).
  by rewrite (proj2 (Z.ltb_lt W 0)) by lia.
Qed.

Lemma sleep_refuses_oversized W (tr : list (@event Timestamp)) :
  W < - sleep_max \/ sleep_max < W ->
  sleep W tr
  = (Raise (OverflowError "timestamp too large to convert to C _PyTime_t"), []).
Proof.
  intros HW. unfold sleep, raise, lift.
  destruct HW as [HW | HW].
  - by rewrite (proj2 (Z.ltb_lt W (- sleep_max))) by lia.
  - rewrite (proj2 (Z.ltb_lt sleep_max W)) by lia. by rewrite orb_true_r.
Qed.


(** X17.  When a pass is rate limited with a negative wait, not below the
    -9223372036 seconds that [time.sleep] takes, [time.sleep] refuses it: the
    loop of passes raises [ValueError] right after that pass, without
    sleeping and without another pass. *)
Theorem negative_wait_raises (fuel : nat) channel (missing : gset string)
    (tr : list (@event Timestamp)) resp k W :
  deletes_answered env tr channel resp ->
  (k < size missing)%nat ->
  (forall i, (i < k)%nat -> not_rate_limited (resp i)) ->
  rate_limited (resp k) ->
  py_int (retry_after_value (response_headers (resp k))) = Ret W ->
  - sleep_max <= W < 0 ->
  exists evs,
    delete_passes env (S fuel) channel missing tr
    = (Raise (ValueError "sleep length must be non-negative"), evs)
    /\ deleted_ts evs = take (S k) (elements missing)
    /\ sleeps evs = [].
Proof.
  intros Hresp Hk Hpass Hlim HW Hneg.
  assert (Hk' : (k < length (elements missing))%nat) by done.
  destruct (lookup_lt_is_Some_2 _ _ Hk') as [ts Hts].
  destruct (delete_pass_paused env channel (elements missing) tr resp k ts
              (NoDup_elements missing) Hresp Hts Hpass Hlim) as (evs1 & Hcalls & Hrun).
  rewrite HW in Hrun.
  pose proof (pass_does_not_sleep channel (elements missing) tr) as Hquiet.
  rewrite Hrun in Hquiet. cbn [snd] in Hquiet.
  eexists. split; [|split; [|exact Hquiet]].
  - cbn [delete_passes]. unfold mbind, M_bind. rewrite Hrun.
    rewrite sleep_refuses_negative by done.
    unfold prefixed. cbn [fst snd]. rewrite ?app_nil_r. reflexivity.
  - rewrite deleted_ts_app, Hcalls. symmetry. by apply take_S_r.
Qed.

(** X22.  When a pass is rate limited with a wait below -9223372036 or
    above 9223372036 seconds, [time.sleep] cannot hold it: the loop of
    passes raises [OverflowError] right after that pass, without sleeping
    and without another pass. *)
Theorem oversized_wait_raises (fuel : nat) channel (missing : gset string)
    (tr : list (@event Timestamp)) resp k W :
  deletes_answered env tr channel resp ->
  (k < size missing)%nat ->
  (forall i, (i < k)%nat -> not_rate_limited (resp i)) ->
  rate_limited (resp k) ->
  py_int (retry_after_value (response_headers (resp k))) = Ret W ->
  W < - sleep_max \/ sleep_max < W ->
  exists evs,
    delete_passes env (S fuel) channel missing tr
    = (Raise (OverflowError "timestamp too large to convert to C _PyTime_t"), evs)
    /\ deleted_ts evs = take (S k) (elements missing)
    /\ sleeps evs = [].
Proof.
  intros Hresp Hk Hpass Hlim HW Hbig.
  assert (Hk' : (k < length (elements missing))%nat) by done.
  destruct (lookup_lt_is_Some_2 _ _ Hk') as [ts Hts].
  destruct (delete_pass_paused env channel (elements missing) tr resp k ts
              (NoDup_elements missing) Hresp Hts Hpass Hlim) as (evs1 & Hcalls & Hrun).
  rewrite HW in Hrun.
  pose proof (pass_does_not_sleep channel (elements missing) tr) as Hquiet.
  rewrite Hrun in Hquiet. cbn [snd] in Hquiet.
  eexists. split; [|split; [|exact Hquiet]].
  - cbn [delete_passes]. unfold mbind, M_bind. rewrite Hrun.
    rewrite sleep_refuses_oversized by done.
    unfold prefixed. cbn [fst snd]. rewrite ?app_nil_r. reflexivity.
  - rewrite deleted_ts_app, Hcalls. symmetry. by apply take_S_r.
Qed.

(** The loop over rules whose channels hold nothing to delete. *)
Lemma delete_by_rules_nothing (fuel : nat) (rules : list rule) :
  (forall (tr : list (@event Timestamp)) channel latest,
     h_ok (conversations_history env tr channel latest 0 false 1000) = true
     /\ h_messages (conversations_history env tr channel latest 0 false 1000) = []) ->
  (forall r, r ∈ rules -> is_ret (py_int (r_days r)) = true /\ is_Some (r_id r)) ->
  forall tr : list (@event Timestamp),
  exists evs,
    delete_by_rules env fuel rules tr = (Ret tt, evs)
    /\ deleted_ts evs = []
    /\ sleeps evs = []
    /\ length (history_calls evs) = length rules.
Proof.
  intros Hempty. induction rules as [|r rest IH]; intros Hrules tr.
  - by exists [].
  - destruct (Hrules r ltac:(by left)) as [Hdays [id Hid]].
    destruct (py_int (r_days r)) as [days| |] eqn:Hint; [|done..].
    cbn [delete_by_rules]. unfold mbind at 1, M_bind at 1, lift at 1. rewrite Hint.
    unfold mbind at 1, M_bind at 1, lift at 1. rewrite Hid. cbn [getitem].
    unfold mbind at 1, M_bind at 1.
    rewrite load_unfold.
    destruct (Hempty ((tr ++ []) ++ []) id
                (LatestFloat (arrow_timestamp env
                   (arrow_shift_days env (- default 15 (Some days))
                      (arrow_now env ((tr ++ []) ++ [])))))) as [Hok Hnone].
    rewrite loop_stale.
    2:{ split; [done|]. by rewrite Hnone. }
    2:{ unfold page_ts. rewrite Hnone. set_solver. }
    rewrite bool_decide_eq_true_2 by done.
    unfold mbind, M_bind, log, emit.
    set (evs0 := [ApiCall (ConversationsHistory id _ 0 false 1000)]).
    destruct (IH ltac:(intros r' Hr'; apply Hrules; by right)
                (((tr ++ []) ++ []) ++ evs0 ++ [] ++ [Log INFO
                   ("There are no messages to delete on channel "
                    +:+ r_channel r +:+ ".")] ++ []))
      as (evs & Hrun & Hd & Hs & Hh).
    unfold prefixed. cbn [fst snd app]. cbn [app] in Hrun.
    rewrite ?app_nil_r in *. rewrite <- ?app_assoc in *. cbn [app] in *.
    rewrite Hrun. cbn [fst snd].
    eexists. split; [reflexivity|]. subst evs0. cbn [app].
    split; [exact Hd|]. split; [exact Hs|]. exact (f_equal S Hh).
Qed.

(** X18.  When every rule names a listed channel and has days that [int]
    reads as a number between 0 and 36500, a shift that [arrow] makes from
    the current date, and every history page is delivered empty,
    [delete_messages] returns, whatever fuel it has: one history request for
    each rule, no delete request and no sleep. *)
Theorem nothing_to_delete (fuel : nat) (slack_token : string) (rules : list rule)
    (tr : list (@event Timestamp)) :
  (forall (tr' : list (@event Timestamp)) channel latest,
     h_ok (conversations_history env tr' channel latest 0 false 1000) = true
     /\ h_messages (conversations_history env tr' channel latest 0 false 1000) = []) ->
  (forall r, r ∈ rules ->
     resolvable (conversations_list env tr) r
     /\ exists days, py_int (r_days r) = Ret days /\ 0 <= days <= 36500) ->
  exists evs,
    delete_messages env fuel slack_token rules tr = (Ret tt, evs)
    /\ deleted_ts evs = []
    /\ sleeps evs = []
    /\ length (history_calls evs) = length rules.
Proof.
  intros Hempty Hrules.
  assert (Hsome : forall r, r ∈ rules ->
             is_Some (listed_mapping (conversations_list env tr)
                      !! remove_hash (r_channel r))).
  { intros r Hr. apply not_eq_None_Some. intros Hnone%listed_mapping_None.
    by apply Hnone, Hrules. }
  unfold delete_messages, mbind, M_bind.
  rewrite map_channels_unfold, resolve_rules_succeeds by done.
  unfold prefixed. cbn [fst snd].
  destruct (delete_by_rules_nothing fuel
              (resolved (listed_mapping (conversations_list env tr)) <$> rules) Hempty)
    with (tr := tr ++ [ApiCall ConversationsList] ++ []) as (evs & Hrun & Hd & Hs & Hh).
  { intros r' (r & -> & Hr)%list_elem_of_fmap. simpl. split; [|by apply Hsome].
    destruct (Hrules r Hr) as (_ & days & -> & _). done. }
  rewrite Hrun. cbn [fst snd app]. eexists. split; [reflexivity|].
  split; [exact Hd|]. split; [exact Hs|]. rewrite length_fmap in Hh. exact Hh.
Qed.

(** X19.  When every rule names a listed channel and [int] raises on the
    days of the first rule, [delete_messages] raises that exception right
    after the channel listing: no history request and no delete request is
    made. *)
Theorem unreadable_days_abort (fuel : nat) (slack_token : string) (r : rule)
    (rest : list rule) (tr : list (@event Timestamp)) e :
  (forall r', r' ∈ r :: rest -> resolvable (conversations_list env tr) r') ->
  py_int (r_days r) = Raise e ->
  delete_messages env fuel slack_token (r :: rest) tr
  = (Raise e, [ApiCall ConversationsList]).
Proof.
  intros Hrules Hint.
  assert (Hsome : forall r', r' ∈ r :: rest ->
             is_Some (listed_mapping (conversations_list env tr)
                      !! remove_hash (r_channel r'))).
  { intros r' Hr'. apply not_eq_None_Some. intros Hnone%listed_mapping_None.
    by apply Hnone, Hrules. }
  unfold delete_messages, mbind, M_bind.
  rewrite map_channels_unfold, resolve_rules_succeeds by done.
  unfold prefixed. cbn [fst snd]. rewrite fmap_cons. cbn [delete_by_rules].
  unfold mbind, M_bind, lift. cbn [resolved r_days]. by rewrite Hint.
Qed.

(** X20.  For a first rule whose days [int] reads as a number between 0 and
    36500, a shift that [arrow] makes from the current date,
    [delete_messages] asks the history of the channel id that the name of the
    rule resolves to, with the cutoff of the days of the rule, counted back
    from the date after the channel listing. *)
Theorem first_rule_reads_its_channel (fuel : nat) (slack_token : string) (r : rule)
    (rest : list rule) (tr : list (@event Timestamp)) before c after days :
  (forall r', r' ∈ r :: rest -> resolvable (conversations_list env tr) r') ->
  conversations_list env tr = before ++ c :: after ->
  remove_hash (c_name c) ∉ ((fun c' => remove_hash (c_name c')) <$> after) ->
  remove_hash (r_channel r) = remove_hash (c_name c) ->
  py_int (r_days r) = Ret days ->
  0 <= days <= 36500 ->
  exists more,
    (delete_messages env fuel slack_token (r :: rest) tr).2
    = ApiCall ConversationsList
      :: ApiCall (ConversationsHistory (c_id c)
                    (LatestFloat
                       (arrow_timestamp env
                          (arrow_shift_days env (- days)
                             (arrow_now env (tr ++ [ApiCall ConversationsList])))))
                    0 false 1000)
      :: more.
Proof.
  intros Hrules Hsplit Hafter Hname Hint _.
  assert (Hsome : forall r', r' ∈ r :: rest ->
             is_Some (listed_mapping (conversations_list env tr)
                      !! remove_hash (r_channel r'))).
  { intros r' Hr'. apply not_eq_None_Some. intros Hnone%listed_mapping_None.
    by apply Hnone, Hrules. }
  assert (Hid : listed_mapping (conversations_list env tr) !! remove_hash (r_channel r)
                = Some (c_id c)).
  { rewrite Hname, Hsplit. by apply listed_mapping_last. }
  unfold delete_messages, mbind, M_bind.
  rewrite map_channels_unfold, resolve_rules_succeeds by done.
  unfold prefixed. cbn [fst snd]. rewrite fmap_cons. cbn [delete_by_rules].
  unfold mbind at 1, M_bind at 1, lift at 1. cbn [resolved r_days r_id]. rewrite Hint.
  unfold mbind at 1, M_bind at 1, lift at 1. rewrite Hid. cbn [getitem].
  unfold mbind at 1, M_bind at 1. rewrite load_unfold.
  destruct (loop_first_request env (c_id c) None None 9 ∅
              (LatestFloat (arrow_timestamp env
                 (arrow_shift_days env (- default 15 (Some days))
                    (arrow_now env (((tr ++ [ApiCall ConversationsList] ++ []) ++ [])
                                    ++ [])))))
              (((tr ++ [ApiCall ConversationsList] ++ []) ++ []) ++ []))
    as [more Hfirst].
  destruct (history_loop env (c_id c) None None 10 ∅ _ _) as [o evs] eqn:Hloop.
  cbn [snd] in Hfirst. subst evs. rewrite !app_nil_r.
  destruct o as [s|e|]; unfold prefixed; cbn [fst snd app]; by eexists.
Qed.

End OrchestrationMore.

(** * [get_instance] *)

(** X21.  The class keeps the instance of the first call: whatever tokens
    the later calls pass, each of them returns the instance built from the
    first token. *)
Theorem first_token_wins (slack_token : string) (later : list string) :
  get_instances (slack_token :: later) None
  = replicate (S (length later)) {| sc_token := slack_token |}.
Proof.
  cbn. f_equal.
  generalize {| sc_token := slack_token |} as instance. intros instance.
  induction later as [|t later IH]; [done|]. cbn. by rewrite IH.
Qed.

(** * The theorems on the examples *)

Example int_of_literals :
  int_of_string "30" = Some 30 /\ int_of_string " +1_000 " = Some 1000
  /\ int_of_string "-7" = Some (-7) /\ int_of_string "1__0" = None
  /\ int_of_string "3.5" = None /\ int_of_string "" = None.
Proof. repeat split; reflexivity. Qed.

(** [int] on bytes given by their numbers: the file separator (28) is no
    white space of ASCII and the literal is refused; the Arabic-Indic digits
    three and zero read as 30; a no-break space before the digit is dropped;
    the delete character (127) is refused. *)
Example int_of_other_literals :
  int_of_string (bytes [28; 53]%N) = None
  /\ int_of_string (bytes [217; 163; 217; 160]%N) = Some 30
  /\ int_of_string (bytes [194; 160; 53]%N) = Some 5
  /\ int_of_string (bytes [127; 49]%N) = None.
Proof. split_and!; vm_compute; reflexivity. Qed.

(** A literal of more than 4300 digits is refused. *)
Lemma long_literal_is_refused s literal :
  to_ascii s = Some literal ->
  (4300 < count_digits (strip literal))%nat ->
  py_int (PStr s) = Raise (ValueError s).
Proof.
  intros Hliteral Hlong. unfold py_int, int_of_string. rewrite Hliteral. simpl.
  by rewrite (proj2 (Nat.leb_gt _ _) Hlong).
Qed.

Example hashes_removed : remove_hash "#gen#eral" = "general".
Proof. reflexivity. Qed.

(** One rule for [#general], 30 days; the second page repeats the oldest
    message of the first: one channel listing, two history requests, the
    warning, one delete request for each message, no sleep. *)
Example purge_general :
  delete_messages (paging repeating_pages) 3 "xoxp-token" one_rule []
  = (Ret tt,
     [ApiCall ConversationsList;
      ApiCall (ConversationsHistory "C1" (LatestFloat 1697408000) 0 false 1000);
      ApiCall (ConversationsHistory "C1" (LatestStr "104.4-0.000001") 0 false 1000);
      Log WARNING ("Deleting 2 messages from the channel #general "
                   +:+ "that are more than 30 days old...");
      ApiCall (ChatDelete "C1" "105.5");
      ApiCall (ChatDelete "C1" "104.4")]).
Proof. vm_compute. reflexivity. Qed.

Lemma limited_at_2_before wait i : (i < 2)%nat -> not_rate_limited (limited_at_2 wait i).
Proof.
  destruct i as [|[|i]]; intros Hi; [by left | | lia].
  right. by exists "message_not_found".
Qed.


Lemma empty_retry_after_waits_2_witness :
  exists evs,
    delete_channel_messages (scripted [] (fun _ => no_page) (limited_at_2 (PStr "")))
      "C1" four_messages []
    = (Ret (Some (list_to_set (drop 2 four_messages), 2)), evs).
Proof.
  apply (empty_retry_after_waits_2
           (scripted [] (fun _ => no_page) (limited_at_2 (PStr "")))
           "C1" four_messages [] (limited_at_2 (PStr "")) 2).
  - compute_done.
  - intros evs ts. reflexivity.
  - simpl. lia.
  - apply limited_at_2_before.
  - split; reflexivity.
  - reflexivity.
  - reflexivity.
Defined.

(** C5, as stated, fails: a retry-after value that is not an integer literal
    (here an HTTP date) makes [int] raise, and so the pass. *)
Lemma date_retry_after_raises :
  rate_limited (delete_limited (PStr "Wed, 21 Oct 2015 07:28:00 GMT"))
  /\ int_of_string "Wed, 21 Oct 2015 07:28:00 GMT" = None
  /\ delete_channel_messages
       (scripted [] (fun _ => no_page)
          (fun _ => delete_limited (PStr "Wed, 21 Oct 2015 07:28:00 GMT")))
       "C1" ["101.1"] []
     = (Raise (ValueError "Wed, 21 Oct 2015 07:28:00 GMT"),
        [ApiCall (ChatDelete "C1" "101.1")]).
Proof. split; [split|split]; reflexivity. Qed.

Lemma plain_failures_are_skipped_witness :
  delete_channel_messages (scripted [] (fun _ => no_page) two_failures) "C1"
    four_messages []
  = (Ret None, pass_events "C1" two_failures 0 four_messages)
  /\ deleted_ts (pass_events (Timestamp := Z) "C1" two_failures 0 four_messages)
     = four_messages
  /\ (forall j,
        (j <= length four_messages)%nat ->
        delete_loop (scripted [] (fun _ => no_page) two_failures) "C1"
          (take j four_messages) (list_to_set four_messages) 0 []
        = (Ret (Finished (list_to_set (drop j four_messages)) j),
           pass_events "C1" two_failures 0 (take j four_messages)))
  /\ (forall i ts error,
        four_messages !! i = Some ts ->
        failed_plainly (two_failures i) error ->
        Log ERROR (delete_error ts "C1" error)
          ∈ pass_events (Timestamp := Z) "C1" two_failures 0 four_messages
        /\ contains (delete_error ts "C1" error) ts
        /\ contains (delete_error ts "C1" error) "C1"
        /\ contains (delete_error ts "C1" error) error
        /\ ts ∉ (list_to_set (drop (S i) four_messages) : gset string)).
Proof.
  apply (plain_failures_are_skipped (scripted [] (fun _ => no_page) two_failures)
           "C1" four_messages [] two_failures).
  - compute_done.
  - intros evs ts. reflexivity.
  - intros [|[|[|[|i]]]] Hi; [by left | right; by eexists | by left | right; by eexists |].
    simpl in Hi. lia.
Defined.

(** C6, as the claim has it: the second of four deletes fails without a
    retry-after key and without an error text.  The pass reads the absent
    text and raises [KeyError]: no error line is logged, and the third and
    the fourth identifier get no delete request. *)
Lemma silent_failure_aborts_the_pass :
  d_ok (silent_failure_at_1 1) = false
  /\ has_retry_after (response_headers (silent_failure_at_1 1)) = false
  /\ delete_channel_messages (scripted [] (fun _ => no_page) silent_failure_at_1) "C1"
       four_messages []
     = (Raise (KeyError "error"),
        [ApiCall (ChatDelete "C1" "101.1"); ApiCall (ChatDelete "C1" "102.2")]).
Proof. repeat split; reflexivity. Qed.

Lemma paging_answered pages channel : history_answered (paging pages) [] channel pages.
Proof. intros evs latest oldest inclusive count. reflexivity. Qed.

Lemma subseteq_checked (a b : gset string) : bool_decide (a ⊆ b) = true -> a ⊆ b.
Proof. apply bool_decide_eq_true_1. Qed.

Lemma not_subseteq_checked (a b : gset string) : bool_decide (a ⊆ b) = false -> a ⊈ b.
Proof. apply bool_decide_eq_false_1. Qed.

Ltac page_facts :=
  repeat split; try reflexivity;
  try (apply not_subseteq_checked; vm_compute; reflexivity);
  try (apply subseteq_checked; vm_compute; reflexivity).

Lemma stops_at_first_stale_page_witness :
  exists evs,
    load_messages_from_channel (paging overlapping_pages) "C1" (Some 30) None None []
    = (Ret (seen None None overlapping_pages 2), evs)
    /\ length evs = 3%nat
    /\ Forall (is_history_request "C1") evs.
Proof.
  apply (proj1 (stops_at_first_stale_page (paging overlapping_pages) "C1" None None
                  (Some 30) [] overlapping_pages
                  (paging_answered overlapping_pages "C1")) 2%nat).
  - lia.
  - intros [|[|i]] Hi; [page_facts.. | lia].
  - page_facts.
Defined.

Lemma endless_pages_advance i :
  (i < 10)%nat -> advances (paging endless_pages) None None endless_pages i.
Proof.
  intros Hi. do 10 (destruct i as [|i]; [page_facts|]). lia.
Qed.

Lemma at_most_ten_pages_witness :
  (length (history_calls
             (load_messages_from_channel (paging endless_pages) "C1" (Some 30%Z)
                None None []).2) <= 10)%nat
  /\ exists evs,
       load_messages_from_channel (paging endless_pages) "C1" (Some 30) None None []
       = (Ret (seen None None endless_pages 10), evs)
       /\ length evs = 10%nat
       /\ Forall (is_history_request "C1") evs
       /\ (size (seen None None endless_pages 10) <= 10 * 1000)%nat.
Proof.
  destruct (at_most_ten_pages (paging endless_pages) "C1" None None (Some 30) [])
    as (Hcalls & Hsize & Hcap).
  split; [exact Hcalls|].
  destruct (Hcap endless_pages (paging_answered endless_pages "C1") endless_pages_advance)
    as (evs & Hrun & Hlen & Hreq).
  exists evs. split; [exact Hrun|]. split; [exact Hlen|]. split; [exact Hreq|].
  apply (fun Hpage => Hsize Hpage _ evs Hrun).
  intros tr' latest. simpl. lia.
Defined.

Lemma history_failure_is_fatal_witness :
  exists evs,
    load_messages_from_channel (paging failing_pages) "C1" (Some 30) None None []
    = (Raise (Exception (history_error "C1" "channel_not_found")),
       evs ++ [Log ERROR (history_error "C1" "channel_not_found")])
    /\ length evs = 2%nat
    /\ Forall (is_history_request "C1") evs
    /\ contains (history_error "C1" "channel_not_found") "C1"
    /\ contains (history_error "C1" "channel_not_found") "channel_not_found".
Proof.
  apply (history_failure_is_fatal (paging failing_pages) "C1" None None (Some 30) []
           failing_pages 1 "channel_not_found").
  - apply paging_answered.
  - lia.
  - intros [|i] Hi; [page_facts | lia].
  - reflexivity.
  - reflexivity.
Defined.

Lemma missing_subtype_raises_witness :
  exists evs,
    load_messages_from_channel (paging bot_pages) "C1" (Some 30) None
      (Some "bot_message") []
    = (Raise (KeyError "subtype"), evs)
    /\ length evs = 2%nat
    /\ Forall (is_history_request "C1") evs.
Proof.
  apply (proj2 (missing_subtype_raises (paging bot_pages) "C1" None (Some "bot_message")
                  (Some 30) "bot_message" eq_refl ltac:(discriminate))
           [] bot_pages 1%nat).
  - apply paging_answered.
  - lia.
  - intros [|i] Hi; [page_facts | lia].
  - reflexivity.
  - exists (plain "103.3"). split; [|reflexivity]. do 2 constructor.
Defined.

(** C10, as stated, fails: the page holds a message without subtype and a
    subtype filter is requested, yet the collector returns, because the type
    filter has dropped that message before the subtype filter reads it. *)
Lemma untyped_message_without_subtype_passes :
  (exists m, m ∈ h_messages (mixed_pages 0) /\ m_subtype m = None)
  /\ load_messages_from_channel (paging mixed_pages) "C1" (Some 30) (Some "message")
       (Some "bot_message") []
     = (Ret {[ "105.5" ]},
        [ApiCall (ConversationsHistory "C1" (LatestFloat 1697408000) 0 false 1000);
         ApiCall (ConversationsHistory "C1" (LatestStr "105.5-0.000001") 0 false 1000)]).
Proof.
  split.
  - exists {| m_ts := "104.4"; m_type := "file"; m_subtype := None |}.
    split; [do 2 constructor | reflexivity].
  - vm_compute. reflexivity.
Qed.

Lemma zero_days_is_kept_witness :
  head (history_calls
          (load_messages_from_channel (paging overlapping_pages) "C1" (Some 0)
             None None []).2)
  <> head (history_calls
             (load_messages_from_channel (paging overlapping_pages) "C1" None
                None None []).2).
Proof.
  apply (proj2 (proj2 (zero_days_is_kept (paging overlapping_pages) "C1" None None []))).
  discriminate.
Defined.

Lemma unknown_channel_aborts_witness :
  exists r,
    r ∈ two_rules
    /\ (remove_hash (r_channel r) ∉ (fun c => remove_hash (c_name c)) <$> general_only)
    /\ map_channels_to_their_id (scripted general_only (fun _ => no_page) (fun _ => deleted_ok))
         two_rules []
       = (Raise (Exception (unknown_channel (remove_hash (r_channel r)))),
          [ApiCall ConversationsList;
           Log ERROR (unknown_channel (remove_hash (r_channel r)))])
    /\ delete_messages (scripted general_only (fun _ => no_page) (fun _ => deleted_ok))
         5 "xoxp-token" two_rules []
       = (Raise (Exception (unknown_channel (remove_hash (r_channel r)))),
          [ApiCall ConversationsList;
           Log ERROR (unknown_channel (remove_hash (r_channel r)))]).
Proof.
  apply (unknown_channel_aborts
           (scripted general_only (fun _ => no_page) (fun _ => deleted_ok))
           5 "xoxp-token" two_rules []).
  exists {| r_channel := "#random"; r_days := PStr "60"; r_id := None |}.
  split; [do 2 constructor|].
  apply not_elem_of_cons. split; [done | apply not_elem_of_nil].
Defined.

(** ** The further theorems on the examples *)

Lemma never_limited (tr : list (@event Z)) channel ts :
  not_rate_limited (chat_delete (scripted [] (fun _ => no_page) (fun _ => deleted_ok))
                      tr channel ts).
Proof. by left. Qed.

Lemma paused_pending_is_the_rest_witness :
  exists j,
    (j < length four_messages)%nat
    /\ deleted_ts [ApiCall (Timestamp := Z) (ChatDelete "C1" "101.1");
                   ApiCall (ChatDelete "C1" "102.2");
                   Log ERROR (delete_error "102.2" "C1" "message_not_found");
                   ApiCall (ChatDelete "C1" "103.3");
                   Log INFO "2 deleted messages. We must wait 5 second/s"]
       = take (S j) four_messages
    /\ list_to_set ["103.3"; "104.4"]
       = (list_to_set four_messages ∖ list_to_set (take j four_messages) : gset string)
    /\ (list_to_set ["103.3"; "104.4"] : gset string) ⊆ list_to_set four_messages.
Proof.
  apply (paused_pending_is_the_rest
           (scripted [] (fun _ => no_page) (limited_at_2 (PStr "5")))
           "C1" four_messages [] (list_to_set ["103.3"; "104.4"]) 5).
  vm_compute. reflexivity.
Defined.

Lemma repeated_identifier_raises_witness :
  exists evs,
    delete_channel_messages (scripted [] (fun _ => no_page) (fun _ => deleted_ok)) "C1"
      (["101.1"; "102.2"] ++ "101.1" :: ["103.3"]) []
    = (Raise (KeyError "101.1"), evs)
    /\ deleted_ts evs = ["101.1"; "102.2"] ++ ["101.1"].
Proof.
  apply (repeated_identifier_raises
           (scripted [] (fun _ => no_page) (fun _ => deleted_ok)) "C1"
           ["101.1"; "102.2"] "101.1" ["103.3"] []).
  - intros tr' ts'. apply never_limited.
  - compute_done.
  - constructor.
Defined.

Lemma failure_without_error_text_raises_witness :
  exists evs ts,
    four_messages !! 1%nat = Some ts
    /\ delete_channel_messages (scripted [] (fun _ => no_page) silent_failure_at_1) "C1"
         four_messages []
       = (Raise (KeyError "error"), evs ++ [ApiCall (ChatDelete "C1" ts)])
    /\ deleted_ts evs = take 1 four_messages.
Proof.
  apply (failure_without_error_text_raises
           (scripted [] (fun _ => no_page) silent_failure_at_1) "C1" four_messages []
           silent_failure_at_1 1).
  - compute_done.
  - intros evs ts. reflexivity.
  - simpl. lia.
  - intros [|i] Hi; [by left | lia].
  - reflexivity.
  - reflexivity.
  - reflexivity.
Defined.

Lemma unlimited_service_needs_one_pass_witness :
  exists evs,
    delete_passes (scripted [] (fun _ => no_page) (fun _ => deleted_ok)) 1 "C1"
      (list_to_set four_messages) []
    = (Ret tt, evs)
    /\ deleted_ts evs = elements (list_to_set four_messages : gset string)
    /\ sleeps evs = [].
Proof.
  apply (unlimited_service_needs_one_pass
           (scripted [] (fun _ => no_page) (fun _ => deleted_ok)) 0 "C1"
           (list_to_set four_messages) []).
  intros tr' ts'. apply never_limited.
Defined.


Lemma negative_wait_raises_witness :
  exists evs,
    delete_passes (scripted [] (fun _ => no_page) (limited_at_2 (PStr "-3"))) 2 "C1"
      (list_to_set four_messages) []
    = (Raise (ValueError "sleep length must be non-negative"), evs)
    /\ deleted_ts evs = take 3 (elements (list_to_set four_messages : gset string))
    /\ sleeps evs = [].
Proof.
  apply (negative_wait_raises
           (scripted [] (fun _ => no_page) (limited_at_2 (PStr "-3"))) 1 "C1"
           (list_to_set four_messages) [] (limited_at_2 (PStr "-3")) 2 (-3)).
  - intros evs ts. reflexivity.
  - vm_compute. lia.
  - apply limited_at_2_before.
  - split; reflexivity.
  - reflexivity.
  - unfold sleep_max. lia.
Defined.

Lemma oversized_wait_raises_witness :
  exists evs,
    delete_passes (scripted [] (fun _ => no_page) (limited_at_2 (PStr "9223372037"))) 2 "C1"
      (list_to_set four_messages) []
    = (Raise (OverflowError "timestamp too large to convert to C _PyTime_t"), evs)
    /\ deleted_ts evs = take 3 (elements (list_to_set four_messages : gset string))
    /\ sleeps evs = [].
Proof.
  apply (oversized_wait_raises
           (scripted [] (fun _ => no_page) (limited_at_2 (PStr "9223372037"))) 1 "C1"
           (list_to_set four_messages) [] (limited_at_2 (PStr "9223372037")) 2 9223372037).
  - intros evs ts. reflexivity.
  - vm_compute. lia.
  - apply limited_at_2_before.
  - split; reflexivity.
  - reflexivity.
  - unfold sleep_max. lia.
Defined.

Lemma one_rule_resolvable r : r ∈ one_rule -> resolvable general_only r.
Proof.
  intros [-> | Hr]%elem_of_cons; [|by apply elem_of_nil in Hr]. constructor.
Qed.

Lemma known_channels_are_resolved_witness :
  map_channels_to_their_id (paging (fun _ => no_page)) one_rule []
  = (Ret (resolved (listed_mapping general_only) <$> one_rule), [ApiCall ConversationsList])
  /\ forall i r,
       one_rule !! i = Some r ->
       exists c,
         c ∈ general_only
         /\ remove_hash (c_name c) = remove_hash (r_channel r)
         /\ (resolved (listed_mapping general_only) <$> one_rule) !! i
            = Some {| r_channel := remove_hash (r_channel r);
                      r_days := r_days r;
                      r_id := Some (c_id c) |}.
Proof.
  apply (known_channels_are_resolved (paging (fun _ => no_page)) one_rule []).
  apply one_rule_resolvable.
Defined.

Lemma later_channel_wins_witness :
  exists rules',
    map_channels_to_their_id (scripted general_twice (fun _ => no_page) (fun _ => deleted_ok))
      one_rule []
    = (Ret rules', [ApiCall ConversationsList])
    /\ r_id <$> rules' !! 0%nat = Some (Some "C2").
Proof.
  apply (later_channel_wins
           (scripted general_twice (fun _ => no_page) (fun _ => deleted_ok)) one_rule []
           [ {| c_id := "C1"; c_name := "general" |} ]
           {| c_id := "C2"; c_name := "#general" |} [] 0
           {| r_channel := "#general"; r_days := PStr "30"; r_id := None |}).
  - intros r [-> | Hr]%elem_of_cons; [|by apply elem_of_nil in Hr]. constructor.
  - reflexivity.
  - apply not_elem_of_nil.
  - reflexivity.
  - reflexivity.
Defined.

Lemma resolution_is_idempotent_witness :
  map_channels_to_their_id (paging (fun _ => no_page))
    [ {| r_channel := "general"; r_days := PStr "30"; r_id := Some "C1" |} ]
    [ApiCall ConversationsList]
  = (Ret [ {| r_channel := "general"; r_days := PStr "30"; r_id := Some "C1" |} ],
     [ApiCall ConversationsList]).
Proof.
  apply (resolution_is_idempotent (paging (fun _ => no_page)) one_rule
           [ {| r_channel := "general"; r_days := PStr "30"; r_id := Some "C1" |} ]
           [] [ApiCall ConversationsList] [ApiCall ConversationsList]).
  - reflexivity.
  - reflexivity.
Defined.


Lemma filters_keep_the_wanted_witness :
  [from_bot "105.5"]
  = filter (wanted (Some "message") (Some "bot_message")) (h_messages (mixed_pages 0)).
Proof.
  apply (filters_keep_the_wanted (Some "message") (Some "bot_message")
           (h_messages (mixed_pages 0)) [from_bot "105.5"]).
  reflexivity.
Defined.


Lemma history_failure_without_error_text_witness :
  exists evs,
    load_messages_from_channel (paging silently_failing_pages) "C1" (Some 30) None None []
    = (Raise (KeyError "error"), evs)
    /\ length evs = 2%nat
    /\ Forall (is_history_request "C1") evs.
Proof.
  apply (history_failure_without_error_text (paging silently_failing_pages) "C1" None None
           (Some 30) [] silently_failing_pages 1).
  - apply paging_answered.
  - lia.
  - intros [|i] Hi; [page_facts | lia].
  - reflexivity.
  - reflexivity.
Defined.

Lemma paging_floats_answered pages channel :
  history_answered (paging_floats pages) [] channel pages.
Proof. intros evs latest oldest inclusive count. reflexivity. Qed.

Lemma least_identifier_must_be_a_float_witness :
  exists evs m,
    load_messages_from_channel (paging_floats word_pages) "C1" (Some 30) None None []
    = (Raise (ValueError m), evs)
    /\ m ∈ page_ts None None (word_pages 1)
    /\ length evs = 2%nat.
Proof.
  apply (least_identifier_must_be_a_float (paging_floats word_pages) "C1" None None
           (Some 30) [] word_pages 1).
  - apply paging_floats_answered.
  - lia.
  - intros [|i] Hi; [page_facts | lia].
  - page_facts.
  - page_facts.
  - intros m Hm _. unfold page_ts in Hm. simpl in Hm.
    apply elem_of_list_to_set in Hm.
    apply elem_of_cons in Hm as [-> | Hm]; [reflexivity|].
    apply elem_of_cons in Hm as [-> | Hm]; [reflexivity|].
    by apply elem_of_nil in Hm.
Defined.


Lemma nothing_to_delete_witness :
  exists evs,
    delete_messages (paging (fun _ => no_page)) 0 "xoxp-token" one_rule [] = (Ret tt, evs)
    /\ deleted_ts evs = []
    /\ sleeps evs = []
    /\ length (history_calls evs) = length one_rule.
Proof.
  apply (nothing_to_delete (paging (fun _ => no_page)) 0 "xoxp-token" one_rule []).
  - intros tr' channel latest. split; reflexivity.
  - intros r Hr. split; [by apply one_rule_resolvable|].
    apply elem_of_cons in Hr as [-> | Hr]; [|by apply elem_of_nil in Hr].
    exists 30. split; [reflexivity | lia].
Defined.

Lemma unreadable_days_abort_witness :
  delete_messages (paging (fun _ => no_page)) 3 "xoxp-token" rule_of_words []
  = (Raise (ValueError "thirty"), [ApiCall ConversationsList]).
Proof.
  apply (unreadable_days_abort (paging (fun _ => no_page)) 3 "xoxp-token"
           {| r_channel := "#general"; r_days := PStr "thirty"; r_id := None |} [] []
           (ValueError "thirty")).
  - intros r [-> | Hr]%elem_of_cons; [|by apply elem_of_nil in Hr]. constructor.
  - reflexivity.
Defined.

Lemma first_rule_reads_its_channel_witness :
  exists more,
    (delete_messages (scripted general_twice repeating_pages (fun _ => deleted_ok))
       3 "xoxp-token" one_rule []).2
    = ApiCall ConversationsList
      :: ApiCall (ConversationsHistory "C2" (LatestFloat (1700000000 + - 30 * 86400))
                    0 false 1000)
      :: more.
Proof.
  apply (first_rule_reads_its_channel
           (scripted general_twice repeating_pages (fun _ => deleted_ok))
           3 "xoxp-token"
           {| r_channel := "#general"; r_days := PStr "30"; r_id := None |} [] []
           [ {| c_id := "C1"; c_name := "general" |} ]
           {| c_id := "C2"; c_name := "#general" |} [] 30).
  - intros r [-> | Hr]%elem_of_cons; [|by apply elem_of_nil in Hr]. constructor.
  - reflexivity.
  - apply not_elem_of_nil.
  - reflexivity.
  - reflexivity.
  - lia.
Defined.
